(** * Live object detection client: readiness monitor, detection loop,
      overlay renderer and metrics of [src/components/object-detection.tsx]

    The component is a React function component.  Every render runs the
    component function once; the [const] bindings it destructures from
    [useState] ([isDetecting], [consecutiveErrors], [lastFrameTime],
    [loadingTimeout], ...) are fixed for that render, and the functions
    it defines ([captureAndDetect], [drawDetections],
    [forceStartDetection], [retryConnection], [checkBackend]) close over
    them.  A setter ([setConsecutiveErrors], ...) changes the value React
    keeps for the next render; it cannot change a [const] of the running
    closure.  The embedding therefore passes two things to every function
    of the component:

    - the render it belongs to, a snapshot [r : State] of the values its
      closure reads, and
    - the world [w : World] it acts on: the values React currently holds
      (written by the setters), the canvas, and the pending timers.

    [requestAnimationFrame(captureAndDetect)] and
    [setTimeout(checkBackend, 2000)] schedule the closure of the render
    they are called in, so a loop or a poll, once started, keeps the
    snapshot it started with.  Of the two effects the embedding has the
    call that matters to the monitor, [checkBackend()] on mount.

    Numbers are JavaScript numbers: binary64 floats for timestamps,
    confidences and coordinates, integers for counters. *)

From Stdlib Require Import ZArith List Bool Lia.
From Stdlib Require Import PrimFloat FloatOps SpecFloat.
From stdpp Require Import base strings gmap list pretty.

Set Warnings "-inexact-float".
Local Open Scope Z_scope.

(** ** JavaScript numbers *)

(** The values [Math.round] can return: an integer, an infinity or NaN
    (a negative zero is not told apart from zero). *)
Inductive JsIntegral :=
| JInt (z : Z)
| JInf (negative : bool)
| JNaN.

(** [Math.round x]: the integer closest to [x], ties towards +infinity,
    that is floor(x + 1/2) computed exactly on the binary64 value
    [(-1)^s * m * 2^e]. *)
Definition Math_round (x : float) : JsIntegral :=
  match Prim2SF x with
  | S754_zero _ => JInt 0
  | S754_infinity s => JInf s
  | S754_nan => JNaN
  | S754_finite s m e =>
      let v := if s then Z.neg m else Z.pos m in
      JInt (if 0 <=? e then v * 2 ^ e
            else (2 * v + 2 ^ (- e)) / 2 ^ (1 - e))
  end.

(** Number-to-string conversion of a template literal, on the values
    above.  Integers print as their decimal digits; this is what
    JavaScript prints below 10^21, a bound no rounded percentage of a
    confidence in [0,1] comes near. *)
Definition Number_toString (n : JsIntegral) : string :=
  match n with
  | JInt z => pretty z
  | JInf false => "Infinity"
  | JInf true => "-Infinity"
  | JNaN => "NaN"
  end.

(** ** Data model *)

(** [interface Prediction]. *)
Record Prediction := {
  bbox : float * float * float * float;
  class : string;
  score : float
}.

(** Timer handles as the browser hands them out: positive integers, so a
    handle is always truthy in [if (loadingTimeout)]. *)
Definition TimerId := positive.

(** The component state, one field per [useState] call, in source order. *)
Record State := {
  isModelLoading : bool;
  error : option string;
  isDetecting : bool;
  backendStatus : string;
  consecutiveErrors : nat;
  loadingTimeout : option TimerId;
  detectionCount : gmap string nat;
  fps : JsIntegral;
  lastFrameTime : float
}.

(** The initial values given to [useState]. *)
Definition initialState : State := {|
  isModelLoading := true;
  error := None;
  isDetecting := false;
  backendStatus := "connecting";
  consecutiveErrors := 0;
  loadingTimeout := None;
  detectionCount := {[ "book" := 0%nat; "laptop" := 0%nat ]};
  fps := JInt 0;
  lastFrameTime := 0%float
|}.

(** The setters returned by [useState]. *)
Definition setIsModelLoading (b : bool) (s : State) : State :=
  {| isModelLoading := b; error := error s; isDetecting := isDetecting s;
     backendStatus := backendStatus s;
     consecutiveErrors := consecutiveErrors s;
     loadingTimeout := loadingTimeout s; detectionCount := detectionCount s;
     fps := fps s; lastFrameTime := lastFrameTime s |}.

Definition setError (e : option string) (s : State) : State :=
  {| isModelLoading := isModelLoading s; error := e;
     isDetecting := isDetecting s; backendStatus := backendStatus s;
     consecutiveErrors := consecutiveErrors s;
     loadingTimeout := loadingTimeout s; detectionCount := detectionCount s;
     fps := fps s; lastFrameTime := lastFrameTime s |}.

Definition setIsDetecting (b : bool) (s : State) : State :=
  {| isModelLoading := isModelLoading s; error := error s; isDetecting := b;
     backendStatus := backendStatus s;
     consecutiveErrors := consecutiveErrors s;
     loadingTimeout := loadingTimeout s; detectionCount := detectionCount s;
     fps := fps s; lastFrameTime := lastFrameTime s |}.

Definition setBackendStatus (b : string) (s : State) : State :=
  {| isModelLoading := isModelLoading s; error := error s;
     isDetecting := isDetecting s; backendStatus := b;
     consecutiveErrors := consecutiveErrors s;
     loadingTimeout := loadingTimeout s; detectionCount := detectionCount s;
     fps := fps s; lastFrameTime := lastFrameTime s |}.

(** [setConsecutiveErrors] is called with a value ([0]) and with an
    updater ([prev => prev + 1]); both are functions of the value React
    holds. *)
Definition setConsecutiveErrors (f : nat -> nat) (s : State) : State :=
  {| isModelLoading := isModelLoading s; error := error s;
     isDetecting := isDetecting s; backendStatus := backendStatus s;
     consecutiveErrors := f (consecutiveErrors s);
     loadingTimeout := loadingTimeout s; detectionCount := detectionCount s;
     fps := fps s; lastFrameTime := lastFrameTime s |}.

Definition setLoadingTimeout (t : option TimerId) (s : State) : State :=
  {| isModelLoading := isModelLoading s; error := error s;
     isDetecting := isDetecting s; backendStatus := backendStatus s;
     consecutiveErrors := consecutiveErrors s;
     loadingTimeout := t; detectionCount := detectionCount s;
     fps := fps s; lastFrameTime := lastFrameTime s |}.

Definition setDetectionCount (d : gmap string nat) (s : State) : State :=
  {| isModelLoading := isModelLoading s; error := error s;
     isDetecting := isDetecting s; backendStatus := backendStatus s;
     consecutiveErrors := consecutiveErrors s;
     loadingTimeout := loadingTimeout s; detectionCount := d;
     fps := fps s; lastFrameTime := lastFrameTime s |}.

Definition setFps (n : JsIntegral) (s : State) : State :=
  {| isModelLoading := isModelLoading s; error := error s;
     isDetecting := isDetecting s; backendStatus := backendStatus s;
     consecutiveErrors := consecutiveErrors s;
     loadingTimeout := loadingTimeout s; detectionCount := detectionCount s;
     fps := n; lastFrameTime := lastFrameTime s |}.

Definition setLastFrameTime (t : float) (s : State) : State :=
  {| isModelLoading := isModelLoading s; error := error s;
     isDetecting := isDetecting s; backendStatus := backendStatus s;
     consecutiveErrors := consecutiveErrors s;
     loadingTimeout := loadingTimeout s; detectionCount := detectionCount s;
     fps := fps s; lastFrameTime := t |}.

(** ** The overlay canvas *)

(** The drawing state of a 2D context that the component touches. *)
Record Context2D := {
  strokeStyle : string;
  fillStyle : string;
  lineWidth : float;
  font : string
}.

(** The state of a fresh or reset context. *)
Definition defaultContext : Context2D := {|
  strokeStyle := "#000000";
  fillStyle := "#000000";
  lineWidth := 1%float;
  font := "10px sans-serif"
|}.

(** What has been painted on the bitmap. *)
Inductive DrawOp :=
| StrokedRect (style : string) (line : float) (x y w h : float)
| FilledRect (style : string) (x y w h : float)
| FilledText (style fnt text : string) (x y : float)
| ClearedRect (x y w h : Z).

(** The canvas element: its bitmap size, its context state, and the
    shapes painted since the bitmap was last blank, oldest first. *)
Record Canvas := {
  width : Z;
  height : Z;
  ctx : Context2D;
  painted : list DrawOp
}.

(** A canvas element as the browser creates it. *)
Definition blankCanvas : Canvas :=
  {| width := 300; height := 150; ctx := defaultContext; painted := [] |}.

(** Assigning [canvas.width] or [canvas.height] sets the bitmap size,
    blanks the bitmap and resets the context to its default state. *)
Definition set_width (v : Z) (c : Canvas) : Canvas :=
  {| width := v; height := height c; ctx := defaultContext; painted := [] |}.

Definition set_height (v : Z) (c : Canvas) : Canvas :=
  {| width := width c; height := v; ctx := defaultContext; painted := [] |}.

Definition with_ctx (k : Context2D) (c : Canvas) : Canvas :=
  {| width := width c; height := height c; ctx := k; painted := painted c |}.

Definition paint (op : DrawOp) (c : Canvas) : Canvas :=
  {| width := width c; height := height c; ctx := ctx c;
     painted := painted c ++ [op] |}.

Definition set_strokeStyle (v : string) (c : Canvas) : Canvas :=
  with_ctx {| strokeStyle := v; fillStyle := fillStyle (ctx c);
              lineWidth := lineWidth (ctx c); font := font (ctx c) |} c.

Definition set_fillStyle (v : string) (c : Canvas) : Canvas :=
  with_ctx {| strokeStyle := strokeStyle (ctx c); fillStyle := v;
              lineWidth := lineWidth (ctx c); font := font (ctx c) |} c.

Definition set_lineWidth (v : float) (c : Canvas) : Canvas :=
  with_ctx {| strokeStyle := strokeStyle (ctx c);
              fillStyle := fillStyle (ctx c);
              lineWidth := v; font := font (ctx c) |} c.

Definition set_font (v : string) (c : Canvas) : Canvas :=
  with_ctx {| strokeStyle := strokeStyle (ctx c);
              fillStyle := fillStyle (ctx c);
              lineWidth := lineWidth (ctx c); font := v |} c.

(** [ctx.clearRect(x, y, w, h)]: a rectangle that covers the bitmap
    leaves nothing painted; a smaller one is recorded over what is
    there. *)
Definition clearRect (x y w h : Z) (c : Canvas) : Canvas :=
  if (x <=? 0) && (y <=? 0) && (width c <=? x + w) && (height c <=? y + h)
  then {| width := width c; height := height c; ctx := ctx c; painted := [] |}
  else paint (ClearedRect x y w h) c.

(** [ctx.beginPath(); ctx.rect(x, y, w, h); ctx.stroke()]. *)
Definition strokeRectPath (x y w h : float) (c : Canvas) : Canvas :=
  paint (StrokedRect (strokeStyle (ctx c)) (lineWidth (ctx c)) x y w h) c.

Definition fillRect (x y w h : float) (c : Canvas) : Canvas :=
  paint (FilledRect (fillStyle (ctx c)) x y w h) c.

Definition fillText (text : string) (x y : float) (c : Canvas) : Canvas :=
  paint (FilledText (fillStyle (ctx c)) (font (ctx c)) text x y) c.

(** ** What one cycle observes of its surroundings *)

(** The [<video>] element behind the webcam component. *)
Record Video := {
  readyState : Z;
  videoWidth : Z;
  videoHeight : Z
}.

(** The body of a non-2xx reply as [response.json()] sees it. *)
Inductive ErrorBody :=
| NotJson
| Json (detail : option string).

(** How the POST to the inference endpoint ends: the fetch rejects; the
    status is not 2xx; the status is 2xx but the body cannot be parsed
    or has no array of objects under [predictions], so that line 75 or
    77 throws [message]; the status is 2xx and the predictions are as
    [interface Prediction] has them; or the status is 2xx and the
    predictions can be counted by class, but one of them has no [bbox]:
    [drawable] are the predictions before the first such one, [culprit]
    its class, [later] the classes of those after it, and [message] what
    line 115 throws when the renderer reaches it. *)
Inductive Response :=
| FetchRejected (message : string)
| HttpError (body : ErrorBody) (statusText : string)
| HttpOkMalformed (message : string)
| HttpOk (predictions : list Prediction)
| HttpOkMissingBbox (drawable : list Prediction) (culprit : string)
    (later : list string) (message : string).

(** Everything outside the component that one call of [captureAndDetect]
    reads, taken as fixed for the call:
    - [webcam]: [webcamRef.current], and inside it its [video], each of
      which may be null;
    - [canvasMounted]: whether [canvasRef.current] is there;
    - [context2d]: whether [getContext("2d")] gives a context;
    - [now]: [performance.now()];
    - [screenshot]: the data URI from [getScreenshot()], [None] when the
      result is null or empty;
    - [response]: the reply of the backend;
    - [measureText]: the width the browser measures for a text in a
      font. *)
Record Frame := {
  webcam : option (option Video);
  canvasMounted : bool;
  context2d : bool;
  now : float;
  screenshot : option string;
  response : Response;
  measureText : string -> string -> float
}.

(** ** Timers and the world *)

(** The closures handed to [setTimeout], each with the render it was
    created in: the watchdog [() => { ...; forceStartDetection() }] and
    the poll [checkBackend]. *)
Inductive Callback :=
| CbForceStart (r : State)
| CbCheckBackend (r : State).

(** A pending timer: its handle, the time in ms at which it is due, and
    what it calls. *)
Record Timer := {
  timerId : TimerId;
  due : Z;
  callback : Callback
}.

(** What the component acts on: the state values React holds, the
    canvas element, the pending timers with the next free handle, the
    time in ms since mounting, and the renders whose health request
    awaits its reply, oldest first. *)
Record World := {
  store : State;
  canvas : Canvas;
  timers : list Timer;
  nextTimer : TimerId;
  clock : Z;
  inflight : list State
}.

(** The world before the first render's effects have run. *)
Definition initialWorld : World := {|
  store := initialState;
  canvas := blankCanvas;
  timers := [];
  nextTimer := 1%positive;
  clock := 0;
  inflight := []
|}.

(** A setter call, and a drawing call, on the world. *)
Definition upd (f : State -> State) (w : World) : World :=
  {| store := f (store w); canvas := canvas w; timers := timers w;
     nextTimer := nextTimer w; clock := clock w; inflight := inflight w |}.

Definition onCanvas (f : Canvas -> Canvas) (w : World) : World :=
  {| store := store w; canvas := f (canvas w); timers := timers w;
     nextTimer := nextTimer w; clock := clock w; inflight := inflight w |}.

(** [setTimeout(cb, delay)]: a fresh handle, due [delay] ms from now. *)
Definition setTimeout (cb : Callback) (delay : Z) (w : World)
  : TimerId * World :=
  (nextTimer w,
   {| store := store w; canvas := canvas w;
      timers := timers w ++
                [{| timerId := nextTimer w; due := clock w + delay;
                    callback := cb |}];
      nextTimer := Pos.succ (nextTimer w); clock := clock w;
      inflight := inflight w |}).

(** [clearTimeout(id)]. *)
Definition clearTimeout (id : TimerId) (w : World) : World :=
  {| store := store w; canvas := canvas w;
     timers := filter (fun t => timerId t <> id) (timers w);
     nextTimer := nextTimer w; clock := clock w; inflight := inflight w |}.

(** [await fetch("http://localhost:8000/")] issued by render [r]. *)
Definition awaitHealth (r : State) (w : World) : World :=
  {| store := store w; canvas := canvas w; timers := timers w;
     nextTimer := nextTimer w; clock := clock w;
     inflight := inflight w ++ [r] |}.

(** ** Overlay renderer *)

(** The label of one prediction, lines 130-133. *)
Definition label (p : Prediction) : string :=
  if decide (class p = "book")
  then "Book " +:+ Number_toString (Math_round (score p * 100)%float) +:+ "%"
  else "Laptop " +:+ Number_toString (Math_round (score p * 100)%float) +:+ "%".

(** The body of [predictions.forEach], lines 115-139. *)
Definition drawPrediction (mt : string -> string -> float)
    (c : Canvas) (p : Prediction) : Canvas :=
  let '(x, y, w, h) := bbox p in
  let c := if decide (class p = "book")
           then set_fillStyle "red" (set_strokeStyle "red" c)
           else if decide (class p = "laptop")
           then set_fillStyle "blue" (set_strokeStyle "blue" c)
           else c in
  let c := set_lineWidth 2%float c in
  let c := strokeRectPath x y w h c in
  let textWidth := mt (font (ctx c)) (label p) in
  let c := fillRect x (y - 20)%float (textWidth + 10)%float 20%float c in
  let c := set_fillStyle "white" c in
  let c := set_font "16px Arial" c in
  fillText (label p) (x + 5)%float (y - 5)%float c.

(** [drawDetections], lines 99-141. *)
Definition drawDetections (f : Frame) (predictions : list Prediction)
    (c : Canvas) : Canvas :=
  if negb (canvasMounted f) then c else
  match webcam f with
  | None | Some None => c
  | Some (Some video) =>
      let c := set_width (videoWidth video) c in
      let c := set_height (videoHeight video) c in
      if negb (context2d f) then c else
      let c := clearRect 0 0 (videoWidth video) (videoHeight video) c in
      fold_left (drawPrediction (measureText f)) predictions c
  end.

(** ** Detection loop *)

(** [data.predictions.filter((p) => p.class === name).length]. *)
Definition countClass (name : string) (predictions : list Prediction) : nat :=
  length (filter (fun p => class p = name) predictions).

(** The object passed to [setDetectionCount], lines 80-83. *)
Definition classCounts (predictions : list Prediction) : gmap string nat :=
  {[ "book" := countClass "book" predictions;
     "laptop" := countClass "laptop" predictions ]}.

(** The counts of lines 77-83 for a reply whose predictions are
    [drawable], then one of class [culprit], then some of the classes
    [later]. *)
Definition rawCounts (drawable : list Prediction) (culprit : string)
    (later : list string) : gmap string nat :=
  {[ "book" := (countClass "book" drawable +
                length (filter (fun name => name = "book")
                          (culprit :: later)))%nat;
     "laptop" := (countClass "laptop" drawable +
                  length (filter (fun name => name = "laptop")
                            (culprit :: later)))%nat ]}.

(** Whether [drawDetections] gets as far as its [forEach]: canvas, video
    and 2D context are there (lines 100 and 110). *)
Definition surface (f : Frame) : bool :=
  canvasMounted f &&
  match webcam f with
  | Some (Some _) => context2d f
  | _ => false
  end.

(** [errorData.detail || response.statusText], with [errorData] the
    parsed body or [{ detail: "Unknown error" }] when parsing fails. *)
Definition errorDetail (body : ErrorBody) (statusText : string) : string :=
  match body with
  | NotJson => "Unknown error"
  | Json (Some d) => if decide (d = "") then statusText else d
  | Json None => statusText
  end.

(** The [catch] block, lines 87-94, in render [r]; the boolean tells
    whether control goes on to line 96. *)
Definition caught (r : State) (message : string) (w : World) : World * bool :=
  if (5 <? consecutiveErrors r)%nat
  then (upd (setIsDetecting false)
          (upd (setError (Some ("Detection error: " +:+ message))) w), false)
  else (w, true).

(** [captureAndDetect] of render [r], lines 31-97.  The boolean tells
    whether the call ended in [requestAnimationFrame(captureAndDetect)],
    which schedules this same closure again. *)
Definition captureAndDetect (r : State) (f : Frame) (w : World)
  : World * bool :=
  match webcam f with
  | None => (w, false)
  | Some video =>
    if negb (canvasMounted f) || negb (isDetecting r) then (w, false) else
    match video with
    | None => (w, true)
    | Some v =>
      if negb (readyState v =? 4) then (w, true) else
      let w := if (0 <? lastFrameTime r)%float
               then upd (setFps (Math_round
                                   (1000 / (now f - lastFrameTime r))%float)) w
               else w in
      let w := upd (setLastFrameTime (now f)) w in
      match screenshot f with
      | None => (w, true)
      | Some _ =>
        match response f with
        | FetchRejected message => caught r message w
        | HttpError body statusText =>
            let w := upd (setConsecutiveErrors S) w in
            if (5 <? consecutiveErrors r)%nat
            then caught r ("Backend error: " +:+ errorDetail body statusText) w
            else (w, true)
        | HttpOkMalformed message =>
            let w := upd (setConsecutiveErrors (fun _ => 0%nat)) w in
            caught r message w
        | HttpOk predictions =>
            let w := upd (setConsecutiveErrors (fun _ => 0%nat)) w in
            let w := upd (setDetectionCount (classCounts predictions)) w in
            (onCanvas (drawDetections f predictions) w, true)
        | HttpOkMissingBbox drawable culprit later message =>
            let w := upd (setConsecutiveErrors (fun _ => 0%nat)) w in
            let w := upd (setDetectionCount
                            (rawCounts drawable culprit later)) w in
            let w := onCanvas (drawDetections f drawable) w in
            if surface f then caught r message w else (w, true)
        end
      end
    end
  end.

(** The animation-frame loop: each frame runs the closure scheduled by
    the previous one, which is the closure of the same render [r].  The
    boolean of the result tells whether a next call is scheduled. *)
Fixpoint rafLoop (r : State) (frames : list Frame) (w : World)
  : World * bool :=
  match frames with
  | [] => (w, true)
  | f :: rest =>
      let '(w', again) := captureAndDetect r f w in
      if again then rafLoop r rest w' else (w', false)
  end.

(** The same loop, recording the outcome of every call made. *)
Fixpoint rafTrace (r : State) (frames : list Frame) (w : World)
  : list (World * bool) :=
  match frames with
  | [] => []
  | f :: rest =>
      let '(w', again) := captureAndDetect r f w in
      (w', again) :: (if again then rafTrace r rest w' else [])
  end.

(** A comparison loop the source does not implement: every frame would
    run the closure of a render that has seen all earlier updates. *)
Fixpoint rerenderedLoop (frames : list Frame) (w : World) : World * bool :=
  match frames with
  | [] => (w, true)
  | f :: rest =>
      let '(w', again) := captureAndDetect (store w) f w in
      if again then rerenderedLoop rest w' else (w', false)
  end.

(** ** Readiness monitor *)

(** [if (loadingTimeout) { clearTimeout(loadingTimeout);
    setLoadingTimeout(null) }], as written at lines 148, 181, 193 and
    203: the handle tested and cleared is the one render [r] holds. *)
Definition clearLoadingTimeout (r : State) (w : World) : World :=
  match loadingTimeout r with
  | Some id => upd (setLoadingTimeout None) (clearTimeout id w)
  | None => w
  end.

(** [forceStartDetection] of render [r], lines 143-152. *)
Definition forceStartDetection (r : State) (w : World) : World :=
  let w := upd (setError None) w in
  let w := upd (setIsModelLoading false) w in
  let w := upd (setIsDetecting true) w in
  let w := upd (setBackendStatus "ready") w in
  clearLoadingTimeout r w.

(** How the GET to the health endpoint ends: the fetch rejects, the
    status is not 2xx, the body of a 2xx reply is not JSON, or it is and
    [data.model_loaded] is truthy or not. *)
Inductive Health :=
| HealthRejected
| HealthHttpError
| HealthBadJson
| HealthOk (model_loaded : bool).

(** [checkBackend] of render [r] up to its [await fetch], lines 162-173:
    the watchdog is armed and remembered, the request is sent. *)
Definition checkBackend_start (r : State) (w : World) : World :=
  let w := upd (setBackendStatus "connecting") w in
  let '(timeout, w) := setTimeout (CbForceStart r) 30000 w in
  let w := upd (setLoadingTimeout (Some timeout)) w in
  awaitHealth r w.

(** The [catch] block of [checkBackend], lines 201-210. *)
Definition checkBackend_caught (r : State) (w : World) : World :=
  let w := clearLoadingTimeout r w in
  let w := upd (setError (Some
    "Cannot connect to the backend. Please make sure the Python server is running.")) w in
  let w := upd (setBackendStatus "error") w in
  upd (setIsModelLoading false) w.

(** [checkBackend] of render [r] from the reply on, lines 174-210. *)
Definition checkBackend_resume (r : State) (h : Health) (w : World) : World :=
  match h with
  | HealthRejected => checkBackend_caught r w
  | HealthBadJson => checkBackend_caught r w
  | HealthOk true =>
      let w := clearLoadingTimeout r w in
      let w := upd (setBackendStatus "ready") w in
      let w := upd (setIsModelLoading false) w in
      upd (setIsDetecting true) w
  | HealthOk false =>
      let w := upd (setBackendStatus "model_loading") w in
      snd (setTimeout (CbCheckBackend r) 2000 w)
  | HealthHttpError =>
      let w := clearLoadingTimeout r w in
      let w := upd (setError (Some
        "Backend service returned an error. Please check the Python server logs.")) w in
      let w := upd (setBackendStatus "error") w in
      upd (setIsModelLoading false) w
  end.

(** [retryConnection] of render [r], lines 154-159. *)
Definition retryConnection (r : State) (w : World) : World :=
  let w := upd (setError None) w in
  let w := upd (setIsModelLoading true) w in
  let w := upd (setConsecutiveErrors (fun _ => 0%nat)) w in
  checkBackend_start r w.

(** *** The monitor left to itself

    Without clicks, two things make the monitor move: the health request
    that has waited longest is answered, at some time, or a pending timer
    fires, at its due time or later if the clock is already past it. *)
Inductive Event :=
| HealthReply (time : Z) (h : Health)
| TimerFires (id : TimerId).

Definition at_time (t : Z) (pending : list Timer) (waiting : list State)
    (w : World) : World :=
  {| store := store w; canvas := canvas w; timers := pending;
     nextTimer := nextTimer w; clock := t; inflight := waiting |}.

Definition runCallback (cb : Callback) (w : World) : World :=
  match cb with
  | CbForceStart r => forceStartDetection r w
  | CbCheckBackend r => checkBackend_start r w
  end.

Definition step (e : Event) (w : World) : option World :=
  match e with
  | HealthReply t h =>
      match inflight w with
      | [] => None
      | r :: waiting =>
          if clock w <=? t
          then Some (checkBackend_resume r h (at_time t (timers w) waiting w))
          else None
      end
  | TimerFires id =>
      match List.find (fun t => Pos.eqb (timerId t) id) (timers w) with
      | None => None
      | Some t =>
          Some (runCallback (callback t)
                  (at_time (Z.max (clock w) (due t))
                     (filter (fun t => timerId t <> id) (timers w))
                     (inflight w) w))
      end
  end.

Fixpoint run (events : list Event) (w : World) : option World :=
  match events with
  | [] => Some w
  | e :: rest =>
      match step e w with
      | Some w' => run rest w'
      | None => None
      end
  end.

(** The first effect, lines 213-214: [checkBackend()] of the first
    render. *)
Definition mounted : World := checkBackend_start initialState initialWorld.

(** Whether no poll ([setTimeout(checkBackend, 2000)]) is pending. *)
Definition pollingCancelled (w : World) : bool :=
  forallb (fun t => match callback t with
                    | CbCheckBackend _ => false
                    | CbForceStart _ => true
                    end) (timers w).

(** Whether timer [id] is pending. *)
Definition pending (id : TimerId) (w : World) : bool :=
  existsb (fun t => Pos.eqb (timerId t) id) (timers w).

(** ** Sample inputs *)

Definition sampleVideo : Video :=
  {| readyState := 4; videoWidth := 640; videoHeight := 480 |}.

(** Text metrics of a fixed-pitch font, 8 pixels a character. *)
Definition sampleMetrics (fnt text : string) : float :=
  Nat.iter (String.length text) (fun width => width + 8)%float 0%float.

(** A cycle in which camera, canvas and screenshot are there. *)
Definition sampleFrame (t : float) (resp : Response) : Frame :=
  {| webcam := Some (Some sampleVideo); canvasMounted := true;
     context2d := true; now := t;
     screenshot := Some "data:image/jpeg;base64,/9j/4AAQ";
     response := resp; measureText := sampleMetrics |}.

Definition http500 : Response :=
  HttpError (Json (Some "inference failed")) "Internal Server Error".

Definition samplePrediction (name : string) (confidence : float) : Prediction :=
  {| bbox := (10, 50, 100, 80)%float; class := name; score := confidence |}.

(** The prediction set of the class count scenario. *)
Definition scenarioPredictions : list Prediction :=
  [ samplePrediction "book" 0.9; samplePrediction "book" 0.4;
    samplePrediction "laptop" 0.8 ].

(** The world once the first health check has found the model loaded,
    half a second after mounting; the render that follows it is the one
    whose effect starts the detection loop. *)
Definition startedWorld : World :=
  default mounted (step (HealthReply 500 (HealthOk true)) mounted).

(** Six animation frames a display refresh apart, each answered by the
    backend with status 500. *)
Definition sixFailures : list Frame :=
  map (fun t => sampleFrame t http500) [16; 33; 50; 66; 83; 100]%float.

(** ** Vocabulary of the statements *)

(** The video element exists and has enough data ([readyState] 4). *)
Definition videoReady (f : Frame) : bool :=
  match webcam f with
  | Some (Some v) => readyState v =? 4
  | _ => false
  end.

(** The call gets past lines 32-38 and records a timestamp. *)
Definition cycleRuns (r : State) (f : Frame) : bool :=
  videoReady f && canvasMounted f && isDetecting r.

(** The call reaches the POST of line 60. *)
Definition requestSent (r : State) (f : Frame) : bool :=
  cycleRuns r f && bool_decide (is_Some (screenshot f)).

(** The inference call did not deliver predictions as
    [interface Prediction] has them. *)
Definition failed (resp : Response) : bool :=
  match resp with
  | HttpOk _ => false
  | _ => true
  end.

(** The call ends before line 77: the reply is no 2xx reply with
    predictions to count and draw. *)
Definition rendererSkipped (resp : Response) : bool :=
  match resp with
  | FetchRejected _ => true
  | HttpError _ _ => true
  | HttpOkMalformed _ => true
  | HttpOk _ => false
  | HttpOkMissingBbox _ _ _ _ => false
  end.

(** The render of a callback. *)
Definition closureOf (cb : Callback) : State :=
  match cb with
  | CbForceStart r => r
  | CbCheckBackend r => r
  end.

(** What holds of a world in which only closures of the first render
    wait: the callbacks of the pending timers and the pending health
    requests all belong to it. *)
Definition unattended (w : World) : Prop :=
  Forall (fun t => closureOf (callback t) = initialState) (timers w) /\
  Forall (fun r => r = initialState) (inflight w).

(** The handle of the timer an event fires, if it fires one. *)
Definition firedBy (e : Event) : option TimerId :=
  match e with
  | TimerFires id => Some id
  | HealthReply _ _ => None
  end.

(** The watchdog armed by the first [checkBackend] call. *)
Definition firstWatchdog : Timer :=
  {| timerId := 1%positive; due := 30000;
     callback := CbForceStart initialState |}.

(** A reply after which [checkBackend] neither polls again nor waits:
    the model is loaded, or the check failed. *)
Definition terminal (e : Event) : bool :=
  match e with
  | HealthReply _ (HealthOk false) => false
  | HealthReply _ _ => true
  | TimerFires _ => false
  end.

(** ** The effects *)


(** The body of the second effect in render [r], lines 224-226, with the
    animation frames that follow its call of [captureAndDetect]. *)
Definition detectionEffect (r : State) (frames : list Frame) (w : World)
  : World * bool :=
  if negb (isModelLoading r) && isDetecting r
  then rafLoop r frames w
  else (w, false).

(** The cleanup of the second effect, line 229. *)
Definition detectionCleanup (w : World) : World :=
  upd (setIsDetecting false) w.

(** ** Further vocabulary *)

(** The refs are there and the render is detecting, but the video is
    missing or has not enough data yet: lines 34-38. *)
Definition waitingForVideo (r : State) (f : Frame) : bool :=
  match webcam f with
  | Some _ => canvasMounted f && isDetecting r && negb (videoReady f)
  | None => false
  end.

(** The call goes on to line 96 without having sent a request: the
    video is not ready, or there is no screenshot. *)
Definition noRequest (r : State) (f : Frame) : bool :=
  match webcam f with
  | Some _ => canvasMounted f && isDetecting r && negb (requestSent r f)
  | None => false
  end.

(** What a reply does to the failure count React holds: a non-2xx reply
    adds one (line 68), a 2xx reply sets 0 (line 74) even if its body
    then fails to parse, a rejected fetch touches nothing. *)
Definition counterStep (n : nat) (resp : Response) : nat :=
  match resp with
  | HttpError _ _ => S n
  | FetchRejected _ => n
  | HttpOkMalformed _ => 0%nat
  | HttpOk _ => 0%nat
  | HttpOkMissingBbox _ _ _ _ => 0%nat
  end.

(** The message of the error that reaches the [catch] block of a render
    whose count is above 5, if the reply raises one (a prediction
    without [bbox] raises nothing by itself: the renderer does, where it
    has a surface to draw on). *)
Definition thrown (resp : Response) : option string :=
  match resp with
  | FetchRejected message => Some message
  | HttpError body statusText =>
      Some ("Backend error: " +:+ errorDetail body statusText)
  | HttpOkMalformed message => Some message
  | HttpOk _ => None
  | HttpOkMissingBbox _ _ _ _ => None
  end.

(** The colour lines 117-123 give a class, if they give one. *)
Definition classColour (name : string) : option string :=
  if decide (name = "book") then Some "red"
  else if decide (name = "laptop") then Some "blue"
  else None.

(** Further sample frames: the video has metadata only; the video is
    ready but [getScreenshot] gives nothing; and a run of requests
    answered with 500, a rejected fetch and a body that is not JSON. *)
Definition notReadyFrame (t : float) : Frame :=
  {| webcam := Some (Some {| readyState := 2; videoWidth := 0;
                             videoHeight := 0 |});
     canvasMounted := true; context2d := true; now := t;
     screenshot := None; response := FetchRejected "unused";
     measureText := sampleMetrics |}.

Definition noScreenshotFrame (t : float) : Frame :=
  {| webcam := Some (Some sampleVideo); canvasMounted := true;
     context2d := true; now := t; screenshot := None;
     response := FetchRejected "unused"; measureText := sampleMetrics |}.

Definition mixedReplies : list Frame :=
  [ sampleFrame 16 http500; sampleFrame 33 http500;
    sampleFrame 50 (FetchRejected "Failed to fetch");
    sampleFrame 66 http500;
    sampleFrame 83 (HttpOkMalformed "Unexpected token < in JSON");
    sampleFrame 100 http500 ]%float.

(** A render that holds a failure count of 6, as React does after
    [sixFailures]. *)
Definition overThreshold : State :=
  store (rafLoop (store startedWorld) sixFailures startedWorld).1.

(** What [drawPrediction] paints for [p] on a context in state [k], and
    the state it leaves the context in, written out: the class colour
    where lines 117-123 set one, else the colour found in the context. *)
Definition shapesOf (mt : string -> string -> float) (k : Context2D)
    (p : Prediction) : list DrawOp :=
  let '(x, y, w, h) := bbox p in
  [ StrokedRect (default (strokeStyle k) (classColour (class p)))
      2%float x y w h;
    FilledRect (default (fillStyle k) (classColour (class p)))
      x (y - 20)%float (mt (font k) (label p) + 10)%float 20%float;
    FilledText "white" "16px Arial" (label p) (x + 5)%float (y - 5)%float ].

Definition contextAfter (k : Context2D) (p : Prediction) : Context2D :=
  {| strokeStyle := default (strokeStyle k) (classColour (class p));
     fillStyle := "white"; lineWidth := 2%float; font := "16px Arial" |}.

(** The shapes of a list of predictions drawn one after the other. *)
Fixpoint overlayOf (mt : string -> string -> float) (k : Context2D)
    (predictions : list Prediction) : list DrawOp :=
  match predictions with
  | [] => []
  | p :: rest => shapesOf mt k p ++ overlayOf mt (contextAfter k p) rest
  end.

(** The render React makes of a world: the closures of the buttons on
    screen read what React holds at that point. *)
Definition currentRender (w : World) : State := store w.

(** * Properties *)

(** From [cycleRuns r f = true] or [requestSent r f = true] in [H]: the
    tests of lines 32-38 pass, and the goal is the rest of the call. *)
Ltac enter_cycle H v :=
  unfold requestSent, cycleRuns, videoReady in H;
  unfold captureAndDetect;
  destruct (webcam _) as [[v|]|]; simpl in H |- *; try discriminate H;
  destruct (canvasMounted _), (isDetecting _), (readyState v =? 4);
  simpl in H |- *; try discriminate H.

(** ** Detection loop: the failure counter *)

Lemma caught_below_threshold (r : State) (message : string) (w : World) :
  (consecutiveErrors r <= 5)%nat -> caught r message w = (w, true).
Proof.
  intros Hle. unfold caught.
  destruct (Nat.ltb_spec 5 (consecutiveErrors r)); [lia | reflexivity].
Qed.

(** A closure whose [consecutiveErrors] is at most 5 never takes the
    fatal exit: the call leaves [error] and [isDetecting] alone. *)
Lemma captureAndDetect_below_threshold (r : State) (f : Frame) (w : World) :
  (consecutiveErrors r <= 5)%nat ->
  error (store (captureAndDetect r f w).1) = error (store w) /\
  isDetecting (store (captureAndDetect r f w).1) = isDetecting (store w).
Proof.
  intros Hle. unfold captureAndDetect.
  destruct (Nat.ltb_spec 5 (consecutiveErrors r)) as [Hgt | _]; [lia |].
  repeat case_match; rewrite ?caught_below_threshold by assumption;
    simpl; auto.
Qed.

(** With such a closure, a call whose request was sent always ends in
    [requestAnimationFrame]. *)
Lemma captureAndDetect_reschedules (r : State) (f : Frame) (w : World) :
  (consecutiveErrors r <= 5)%nat ->
  cycleRuns r f = true ->
  (captureAndDetect r f w).2 = true.
Proof.
  intros Hle Hruns.
  destruct (Nat.ltb_spec 5 (consecutiveErrors r)) as [Hgt | _]; [lia |].
  enter_cycle Hruns v.
  repeat case_match; rewrite ?caught_below_threshold by assumption;
    simpl; auto.
Qed.

(** A request answered with predictions sets the counter to 0. *)
Lemma captureAndDetect_success_resets (r : State) (f : Frame) (w : World) :
  requestSent r f = true ->
  failed (response f) = false ->
  consecutiveErrors (store (captureAndDetect r f w).1) = 0%nat.
Proof.
  intros Hsent Hok. enter_cycle Hsent v.
  destruct (screenshot f); simpl in *.
  - destruct (response f); simpl in *; try discriminate. reflexivity.
  - discriminate.
Qed.

Lemma rafLoop_cons (r : State) (f : Frame) (rest : list Frame) (w : World) :
  (captureAndDetect r f w).2 = true ->
  rafLoop r (f :: rest) w = rafLoop r rest (captureAndDetect r f w).1 /\
  rafTrace r (f :: rest) w =
    captureAndDetect r f w :: rafTrace r rest (captureAndDetect r f w).1.
Proof.
  simpl. destruct (captureAndDetect r f w) as [w' again]. simpl.
  intros ->. auto.
Qed.


(** The fatal exit is taken by a closure whose own count is above 5, on
    its first failed reply: the message is surfaced, [isDetecting] is
    set to false and no further call is scheduled. *)
Lemma above_threshold_failure_is_fatal
    (r : State) (f : Frame) (w : World) (body : ErrorBody) (status : string) :
  (5 < consecutiveErrors r)%nat ->
  requestSent r f = true ->
  response f = HttpError body status ->
  (captureAndDetect r f w).2 = false /\
  isDetecting (store (captureAndDetect r f w).1) = false /\
  error (store (captureAndDetect r f w).1) =
    Some ("Detection error: " +:+
          ("Backend error: " +:+ errorDetail body status)).
Proof.
  intros Hgt Hsent Hresp. enter_cycle Hsent v. rewrite Hresp.
  unfold caught.
  destruct (Nat.ltb_spec 5 (consecutiveErrors r)) as [_ | Hle]; [| lia].
  destruct (screenshot f); simpl in *; [| discriminate].
  destruct (0 <? lastFrameTime r)%float; simpl; auto.
Qed.

(** C1.  After a normal start, six consecutive replies with status 500
    leave the loop running: the sixth call ends in
    [requestAnimationFrame] like the five before it, no call sets an
    error or touches [isDetecting], and React holds the counter value 6,
    which the closure never reads. *)
Theorem sixth_failure_keeps_running :
  let out := rafLoop (store startedWorld) sixFailures startedWorld in
  out.2 = true /\
  Forall (fun call => call.2 = true)
         (rafTrace (store startedWorld) sixFailures startedWorld) /\
  isDetecting (store out.1) = isDetecting (store startedWorld) /\
  error (store out.1) = None /\
  consecutiveErrors (store out.1) = 6%nat.
Proof. vm_compute. repeat split; repeat constructor. Qed.

(** Even if every frame ran the closure of an up-to-date render, line 70
    would read the count before the increment of line 68: the sixth
    failure would pass and the seventh would stop the loop. *)
Lemma rerendered_sixth_failure_keeps_running :
  let out := rerenderedLoop sixFailures startedWorld in
  out.2 = true /\ isDetecting (store out.1) = true /\
  error (store out.1) = None /\ consecutiveErrors (store out.1) = 6%nat.
Proof. vm_compute. auto. Qed.

Lemma rerendered_seventh_failure_stops :
  let out := rerenderedLoop (sixFailures ++ [sampleFrame 116 http500])
               startedWorld in
  out.2 = false /\ isDetecting (store out.1) = false /\
  error (store out.1) =
    Some "Detection error: Backend error: inference failed".
Proof. vm_compute. auto. Qed.

(** In the loop of a render whose failure count is at most 5 (the
    render that starts detection has 0), any run of failed inference
    calls followed by a successful one, in particular a run of at most
    5, never takes the fatal exit: every call is made and ends in
    [requestAnimationFrame], [error] and [isDetecting] stay as they
    were, and after the success the counter is 0. *)
Lemma transient_failures_then_success
    (r : State) (w : World) (failures : list Frame) (ok : Frame) :
  (consecutiveErrors r <= 5)%nat ->
  Forall (fun f => requestSent r f = true /\ failed (response f) = true)
         failures ->
  requestSent r ok = true ->
  failed (response ok) = false ->
  let calls := rafTrace r (failures ++ [ok]) w in
  length calls = S (length failures) /\
  Forall (fun out => out.2 = true /\
                     error (store out.1) = error (store w) /\
                     isDetecting (store out.1) = isDetecting (store w))
         calls /\
  consecutiveErrors (store (rafLoop r (failures ++ [ok]) w).1) = 0%nat.
Proof.
  intros Hle Hfail Hsent Hok. revert w.
  assert (Hruns : forall f, requestSent r f = true -> cycleRuns r f = true).
  { intros f. unfold requestSent. rewrite andb_true_iff. tauto. }
  induction Hfail as [| f rest [Hf _] _ IH]; intros w.
  - pose proof (captureAndDetect_reschedules r ok w Hle (Hruns _ Hsent)) as Hr.
    pose proof (captureAndDetect_below_threshold r ok w Hle) as [He Hd].
    pose proof (captureAndDetect_success_resets r ok w Hsent Hok) as H0.
    cbv zeta. simpl app.
    destruct (rafLoop_cons r ok [] w Hr) as [-> ->]. simpl.
    repeat split; auto.
  - pose proof (captureAndDetect_reschedules r f w Hle (Hruns _ Hf)) as Hr.
    pose proof (captureAndDetect_below_threshold r f w Hle) as [He Hd].
    cbv zeta in *. simpl app.
    destruct (rafLoop_cons r f (rest ++ [ok]) w Hr) as [-> ->].
    destruct (IH (captureAndDetect r f w).1) as (Hlen & Hall & Hzero).
    simpl. repeat split; auto.
    constructor; [auto |].
    eapply Forall_impl; [exact Hall |].
    intros out (? & ? & ?). repeat split; congruence.
Qed.

Lemma transient_failures_then_success_witness :
  let r := store startedWorld in
  let failures := firstn 5 sixFailures in
  let ok := sampleFrame 116 (HttpOk scenarioPredictions) in
  length (rafTrace r (failures ++ [ok]) startedWorld) = 6%nat /\
  Forall (fun out => out.2 = true /\
                     error (store out.1) = error (store startedWorld) /\
                     isDetecting (store out.1) =
                       isDetecting (store startedWorld))
         (rafTrace r (failures ++ [ok]) startedWorld) /\
  consecutiveErrors
    (store (rafLoop r (failures ++ [ok]) startedWorld).1) = 0%nat.
Proof.
  apply (transient_failures_then_success (store startedWorld) startedWorld
           (firstn 5 sixFailures)
           (sampleFrame 116 (HttpOk scenarioPredictions))).
  - vm_compute. lia.
  - repeat constructor.
  - reflexivity.
  - reflexivity.
Defined.

(** C2.  In the loop of a render whose own count is above 5 a single
    failure is fatal, also right after a success.  Six replies with
    status 500 leave React with a count of 6 and the watchdog of the
    first health check pending; it fires at 30000 ms, and the render it
    causes (count 6, not loading, detecting) meets the condition of the
    detection effect.  In the loop of that render a reply with
    predictions sets the count React holds to 0 and the loop goes on;
    the one failure that follows stops it with an error, the count
    being 1; the call after it is never made. *)
Theorem failure_after_success_is_fatal :
  exists w,
    step (TimerFires 1%positive)
      (rafLoop (store startedWorld) sixFailures startedWorld).1 = Some w /\
    clock w = 30000 /\
    consecutiveErrors (store w) = 6%nat /\
    isModelLoading (store w) = false /\
    isDetecting (store w) = true /\
    map (fun call => (call.2, error (store call.1),
                      consecutiveErrors (store call.1)))
        (rafTrace (store w)
           [ sampleFrame 30016 (HttpOk scenarioPredictions);
             sampleFrame 30033 http500;
             sampleFrame 30050 (HttpOk scenarioPredictions) ] w) =
      [ (true, None, 0%nat);
        (false, Some "Detection error: Backend error: inference failed",
         1%nat) ] /\
    isDetecting
      (store (detectionEffect (store w)
                [ sampleFrame 30016 (HttpOk scenarioPredictions);
                  sampleFrame 30033 http500;
                  sampleFrame 30050 (HttpOk scenarioPredictions) ] w).1)
      = false.
Proof.
  exists (default startedWorld
            (step (TimerFires 1%positive)
               (rafLoop (store startedWorld) sixFailures startedWorld).1)).
  split_and!; vm_compute; reflexivity.
Qed.

(** ** Detection loop: frame rate *)

(** C5, as the code has it.  A call that gets past the readiness checks
    stores [now] as last frame time, and sets [fps] to
    [Math.round(1000 / (now - lastFrameTime))] when the [lastFrameTime]
    of its render is greater than 0; a [lastFrameTime] of 0 stands for
    no previous frame and leaves [fps] as it was. *)
Theorem fps_of_cycle (r : State) (f : Frame) (w : World) :
  cycleRuns r f = true ->
  fps (store (captureAndDetect r f w).1) =
    (if (0 <? lastFrameTime r)%float
     then Math_round (1000 / (now f - lastFrameTime r))%float
     else fps (store w)) /\
  lastFrameTime (store (captureAndDetect r f w).1) = now f.
Proof.
  intros Hruns. enter_cycle Hruns v.
  unfold caught.
  destruct (0 <? lastFrameTime r)%float; repeat case_match; simpl; auto.
Qed.

(** A render that has seen a frame at 100 ms computes 10 frames a second
    for a frame at 200 ms. *)
Lemma fps_of_cycle_witness :
  let w := (captureAndDetect (store startedWorld)
              (sampleFrame 100 (HttpOk [])) startedWorld).1 in
  let out := (captureAndDetect (store w) (sampleFrame 200 (HttpOk [])) w).1 in
  lastFrameTime (store w) = 100%float /\
  fps (store out) = JInt 10 /\
  lastFrameTime (store out) = 200%float.
Proof.
  split; [reflexivity |].
  apply (fps_of_cycle
           (store (captureAndDetect (store startedWorld)
                     (sampleFrame 100 (HttpOk [])) startedWorld).1)
           (sampleFrame 200 (HttpOk []))).
  reflexivity.
Defined.

(** C5 as stated fails at its own example: with frames at 0 ms and at
    100 ms the second call finds a last frame time of 0, which line 41
    takes for no previous frame, and [fps] keeps its initial 0.  This is
    so in the loop as written and also if the second frame ran the
    closure of an up-to-date render. *)
Lemma fps_not_computed_after_timestamp_zero :
  let frames := [sampleFrame 0 (HttpOk []); sampleFrame 100 (HttpOk [])] in
  fps (store (rafLoop (store startedWorld) frames startedWorld).1) <> JInt 10 /\
  fps (store (rerenderedLoop frames startedWorld).1) <> JInt 10 /\
  lastFrameTime (store (rerenderedLoop [sampleFrame 0 (HttpOk [])]
                          startedWorld).1) = 0%float.
Proof. vm_compute. repeat split; discriminate. Qed.

(** ** Detection loop: class counts *)

(** A request answered with predictions stores the counts of exactly
    these predictions. *)
Lemma captureAndDetect_counts
    (r : State) (f : Frame) (w : World) (predictions : list Prediction) :
  requestSent r f = true ->
  response f = HttpOk predictions ->
  detectionCount (store (captureAndDetect r f w).1) = classCounts predictions.
Proof.
  intros Hsent Hresp. enter_cycle Hsent v. rewrite Hresp.
  destruct (screenshot f); simpl in *; [reflexivity | discriminate].
Qed.

(** C6.  The counts stored by a successful cycle are those of the
    predictions of that cycle, whatever was stored before; for the
    scenario's three predictions they are book 2, laptop 1. *)
Theorem counts_recomputed
    (r : State) (f : Frame) (w : World) (predictions : list Prediction) :
  requestSent r f = true ->
  response f = HttpOk predictions ->
  detectionCount (store (captureAndDetect r f w).1) =
    {[ "book" := countClass "book" predictions;
       "laptop" := countClass "laptop" predictions ]} /\
  classCounts scenarioPredictions = {[ "book" := 2%nat; "laptop" := 1%nat ]}.
Proof.
  intros Hsent Hresp. split.
  - apply captureAndDetect_counts; assumption.
  - reflexivity.
Qed.

(** The scenario run twice in a row still counts book 2, laptop 1. *)
Lemma counts_recomputed_witness :
  let f := sampleFrame 100 (HttpOk scenarioPredictions) in
  let w := (captureAndDetect (store startedWorld) f startedWorld).1 in
  detectionCount (store w) = {[ "book" := 2%nat; "laptop" := 1%nat ]} /\
  detectionCount (store (captureAndDetect (store startedWorld) f w).1) =
    {[ "book" := 2%nat; "laptop" := 1%nat ]}.
Proof.
  split; [reflexivity |].
  apply (counts_recomputed (store startedWorld)
           (sampleFrame 100 (HttpOk scenarioPredictions))
           (captureAndDetect (store startedWorld)
              (sampleFrame 100 (HttpOk scenarioPredictions)) startedWorld).1
           scenarioPredictions);
    reflexivity.
Defined.

Lemma classCounts_dom (predictions : list Prediction) :
  dom (classCounts predictions) = ({[ "book"; "laptop" ]} : gset string).
Proof. unfold classCounts. rewrite dom_insert_L, dom_singleton_L. reflexivity. Qed.

Lemma countClass_known (name : string) (predictions : list Prediction) :
  name = "book" \/ name = "laptop" ->
  countClass name
    (filter (fun p => class p = "book" \/ class p = "laptop") predictions) =
  countClass name predictions.
Proof.
  intros Hname. unfold countClass. f_equal.
  induction predictions as [| p rest IH]; [reflexivity |].
  rewrite !filter_cons.
  destruct (decide (class p = name)) as [Hp | Hp].
  - rewrite decide_True by (destruct Hname; subst; auto).
    rewrite filter_cons, decide_True by assumption. f_equal. exact IH.
  - case_decide; [rewrite filter_cons, decide_False by assumption |];
      exact IH.
Qed.

(** The count object never gains or loses a key in a cycle. *)
Lemma captureAndDetect_keys (r : State) (f : Frame) (w : World) :
  dom (detectionCount (store w)) = ({[ "book"; "laptop" ]} : gset string) ->
  dom (detectionCount (store (captureAndDetect r f w).1)) =
    ({[ "book"; "laptop" ]} : gset string).
Proof.
  intros Hdom. unfold captureAndDetect, caught.
  repeat case_match; simpl; auto using classCounts_dom.
Qed.

(** C10.  Through any run of the loop the count object keeps exactly the
    keys book and laptop, and the counts a successful cycle stores are
    those of its book and laptop predictions alone: predictions of other
    classes change neither. *)
Theorem counts_keys_and_classes
    (r : State) (frames : list Frame) (w : World) :
  dom (detectionCount (store w)) = ({[ "book"; "laptop" ]} : gset string) ->
  dom (detectionCount (store (rafLoop r frames w).1)) =
    ({[ "book"; "laptop" ]} : gset string) /\
  forall (f : Frame) (predictions : list Prediction),
    requestSent r f = true ->
    response f = HttpOk predictions ->
    detectionCount (store (captureAndDetect r f w).1) =
      classCounts
        (filter (fun p => class p = "book" \/ class p = "laptop") predictions).
Proof.
  intros Hdom. split.
  - revert w Hdom. induction frames as [| f rest IH]; intros w Hdom.
    + exact Hdom.
    + simpl. pose proof (captureAndDetect_keys r f w Hdom) as Hstep.
      destruct (captureAndDetect r f w) as [w' again]. simpl in *.
      destruct again; auto.
  - intros f predictions Hsent Hresp.
    rewrite (captureAndDetect_counts r f w predictions Hsent Hresp).
    unfold classCounts. rewrite !countClass_known by auto. reflexivity.
Qed.

Lemma counts_keys_and_classes_witness :
  let crowd := samplePrediction "person" 0.7 :: scenarioPredictions in
  dom (detectionCount (store startedWorld)) =
    ({[ "book"; "laptop" ]} : gset string) /\
  dom (detectionCount
         (store (rafLoop (store startedWorld)
                   [sampleFrame 100 (HttpOk crowd)] startedWorld).1)) =
    ({[ "book"; "laptop" ]} : gset string).
Proof.
  split; [reflexivity |].
  apply (counts_keys_and_classes (store startedWorld)
           [sampleFrame 100
              (HttpOk (samplePrediction "person" 0.7 :: scenarioPredictions))]
           startedWorld).
  reflexivity.
Defined.

(** ** Detection loop: the overlay on failures *)

Lemma captureAndDetect_failure_canvas (r : State) (f : Frame) (w : World) :
  rendererSkipped (response f) = true ->
  canvas (captureAndDetect r f w).1 = canvas w.
Proof.
  intros Hskipped. unfold captureAndDetect, caught.
  destruct (response f); try discriminate;
    repeat case_match; reflexivity.
Qed.

(** C8, as the code has it.  A run of inference calls that fail before
    the predictions are read (the fetch rejects, the status is not 2xx,
    or the body of a 2xx reply cannot be parsed or has no predictions)
    leaves the canvas exactly as it was: [drawDetections] is not called,
    so what the last successful cycle drew stays until a later cycle
    draws. *)
Theorem failures_leave_overlay
    (r : State) (failures : list Frame) (w : World) :
  Forall (fun f => rendererSkipped (response f) = true) failures ->
  canvas (rafLoop r failures w).1 = canvas w.
Proof.
  intros Hall. revert w.
  induction Hall as [| f rest Hf _ IH]; intros w; [reflexivity |].
  simpl. pose proof (captureAndDetect_failure_canvas r f w Hf) as Hstep.
  destruct (captureAndDetect r f w) as [w' again]. simpl in *.
  destruct again; [rewrite IH |]; exact Hstep.
Qed.

Lemma failures_leave_overlay_witness :
  let drawn := (captureAndDetect (store startedWorld)
                  (sampleFrame 0 (HttpOk scenarioPredictions))
                  startedWorld).1 in
  length (painted (canvas drawn)) = 9%nat /\
  canvas (rafLoop (store startedWorld) mixedReplies drawn).1 = canvas drawn.
Proof.
  split; [reflexivity |].
  apply (failures_leave_overlay (store startedWorld) mixedReplies).
  repeat constructor.
Defined.

(** C8 as stated fails for a failure inside the renderer.  After a cycle
    that drew the three predictions of the scenario, a 2xx reply with
    one book that has no [bbox] is counted (book 1, laptop 0), the
    canvas is resized and cleared, and line 115 throws: the call ends in
    the [catch] block as a transient failure (no error is set, the next
    call is scheduled), and the overlay of the earlier cycle is gone. *)
Lemma missing_bbox_wipes_overlay :
  let drawn := (captureAndDetect (store startedWorld)
                  (sampleFrame 0 (HttpOk scenarioPredictions))
                  startedWorld).1 in
  let out := captureAndDetect (store startedWorld)
               (sampleFrame 16
                  (HttpOkMissingBbox [] "book" []
                     "undefined is not iterable"))
               drawn in
  length (painted (canvas drawn)) = 9%nat /\
  out.2 = true /\
  error (store out.1) = None /\
  painted (canvas out.1) = [] /\
  canvas out.1 <> canvas drawn /\
  detectionCount (store out.1) = {[ "book" := 1%nat; "laptop" := 0%nat ]}.
Proof.
  split_and!; try (vm_compute; reflexivity).
  intros Hsame.
  apply (f_equal (fun c => length (painted c))) in Hsame.
  vm_compute in Hsame. discriminate.
Qed.

(** ** Overlay renderer *)

(** What one prediction adds to the bitmap: the box outline, the label
    background and the label, in the styles in force at that point. *)
Lemma drawPrediction_painted
    (mt : string -> string -> float) (c : Canvas) (p : Prediction) :
  let '(x, y, w, h) := bbox p in
  let stroke := if decide (class p = "book") then "red"
                else if decide (class p = "laptop") then "blue"
                else strokeStyle (ctx c) in
  let fill := if decide (class p = "book") then "red"
              else if decide (class p = "laptop") then "blue"
              else fillStyle (ctx c) in
  painted (drawPrediction mt c p) =
    painted c ++
    [ StrokedRect stroke 2%float x y w h;
      FilledRect fill x (y - 20)%float
        (mt (font (ctx c)) (label p) + 10)%float 20%float;
      FilledText "white" "16px Arial" (label p) (x + 5)%float (y - 5)%float ].
Proof.
  unfold drawPrediction. destruct (bbox p) as [[[x y] w] h].
  repeat case_decide; simpl; rewrite <- !app_assoc; reflexivity.
Qed.

Lemma drawPrediction_size
    (mt : string -> string -> float) (c : Canvas) (p : Prediction) :
  width (drawPrediction mt c p) = width c /\
  height (drawPrediction mt c p) = height c.
Proof.
  unfold drawPrediction. destruct (bbox p) as [[[x y] w] h].
  repeat case_decide; simpl; auto.
Qed.

Lemma drawPredictions_size
    (mt : string -> string -> float) (predictions : list Prediction)
    (c : Canvas) :
  width (fold_left (drawPrediction mt) predictions c) = width c /\
  height (fold_left (drawPrediction mt) predictions c) = height c.
Proof.
  revert c. induction predictions as [| p rest IH]; intros c; [auto |].
  simpl. destruct (IH (drawPrediction mt c p)) as [-> ->].
  apply drawPrediction_size.
Qed.

(** On a book or a laptop the label is the capitalised class name and
    the confidence as a rounded percentage. *)
Lemma label_known_class (p : Prediction) :
  (class p = "book" ->
   label p = "Book " +:+
             Number_toString (Math_round (score p * 100)%float) +:+ "%") /\
  (class p = "laptop" ->
   label p = "Laptop " +:+
             Number_toString (Math_round (score p * 100)%float) +:+ "%").
Proof.
  unfold label. split; intros Hclass; rewrite Hclass; reflexivity.
Qed.

(** C7.  With canvas and video in place, what [drawDetections] leaves on
    the canvas does not depend on what was there: the bitmap takes the
    size of the video frame and holds the drawing of the given
    predictions on a blank surface, nothing of an earlier overlay. *)
Theorem overlay_redrawn_from_blank
    (f : Frame) (predictions : list Prediction) (v : Video)
    (before other : Canvas) :
  canvasMounted f = true ->
  webcam f = Some (Some v) ->
  drawDetections f predictions before = drawDetections f predictions other /\
  width (drawDetections f predictions before) = videoWidth v /\
  height (drawDetections f predictions before) = videoHeight v /\
  (context2d f = true ->
   drawDetections f predictions before =
     fold_left (drawPrediction (measureText f)) predictions
       {| width := videoWidth v; height := videoHeight v;
          ctx := defaultContext; painted := [] |}).
Proof.
  intros Hcanvas Hvideo. unfold drawDetections.
  rewrite Hcanvas, Hvideo. simpl.
  assert (Hclear : forall c,
    clearRect 0 0 (videoWidth v) (videoHeight v)
      (set_height (videoHeight v) (set_width (videoWidth v) c)) =
    {| width := videoWidth v; height := videoHeight v;
       ctx := defaultContext; painted := [] |}).
  { intros c. unfold clearRect, set_height, set_width. simpl.
    rewrite !Z.leb_refl. reflexivity. }
  destruct (context2d f); simpl.
  - rewrite !Hclear.
    destruct (drawPredictions_size (measureText f) predictions
                {| width := videoWidth v; height := videoHeight v;
                   ctx := defaultContext; painted := [] |}) as [Hw Hh].
    auto.
  - repeat split; auto. discriminate.
Qed.

Lemma overlay_redrawn_from_blank_witness :
  let f := sampleFrame 0 (HttpOk scenarioPredictions) in
  let stale := drawDetections f [samplePrediction "laptop" 0.6] blankCanvas in
  length (painted stale) = 3%nat /\
  drawDetections f scenarioPredictions stale =
    drawDetections f scenarioPredictions blankCanvas /\
  width (drawDetections f scenarioPredictions stale) = 640 /\
  height (drawDetections f scenarioPredictions stale) = 480.
Proof.
  split; [reflexivity |].
  pose proof (overlay_redrawn_from_blank
                (sampleFrame 0 (HttpOk scenarioPredictions))
                scenarioPredictions sampleVideo
                (drawDetections (sampleFrame 0 (HttpOk scenarioPredictions))
                   [samplePrediction "laptop" 0.6] blankCanvas)
                blankCanvas eq_refl eq_refl) as (Hsame & Hw & Hh & _).
  exact (conj Hsame (conj Hw Hh)).
Defined.

(** A successful cycle hands the canvas to [drawDetections], so its
    overlay too is independent of the overlay it replaces. *)
Lemma successful_cycle_overlay
    (r : State) (f : Frame) (w : World) (predictions : list Prediction) :
  requestSent r f = true ->
  response f = HttpOk predictions ->
  canvas (captureAndDetect r f w).1 =
    drawDetections f predictions (canvas w).
Proof.
  intros Hsent Hresp. enter_cycle Hsent v. rewrite Hresp.
  destruct (screenshot f); simpl in *; [| discriminate].
  destruct (0 <? lastFrameTime r)%float; reflexivity.
Qed.

(** C9.  A prediction of a class other than book is labelled Laptop: for
    a person found with confidence 0.8 the renderer writes "Laptop 80%",
    over a background in the context's default colour. *)
Theorem unknown_class_labelled_laptop :
  let p := samplePrediction "person" 0.8 in
  label p = "Laptop 80%" /\
  painted (drawDetections (sampleFrame 0 (HttpOk [p])) [p] blankCanvas) =
    [ StrokedRect "#000000" 2 10 50 100 80;
      FilledRect "#000000" 10 30 90 20;
      FilledText "white" "16px Arial" "Laptop 80%" 15 45 ]%float.
Proof. vm_compute. auto. Qed.

(** For the two classes of interest the renderer does what C9 says. *)
Lemma known_classes_labelled :
  let book := samplePrediction "book" 0.9 in
  let laptop := samplePrediction "laptop" 0.8 in
  painted (drawDetections (sampleFrame 0 (HttpOk [book; laptop]))
             [book; laptop] blankCanvas) =
    [ StrokedRect "red" 2 10 50 100 80;
      FilledRect "red" 10 30 74 20;
      FilledText "white" "16px Arial" "Book 90%" 15 45;
      StrokedRect "blue" 2 10 50 100 80;
      FilledRect "blue" 10 30 90 20;
      FilledText "white" "16px Arial" "Laptop 80%" 15 45 ]%float.
Proof. vm_compute. auto. Qed.

(** ** Readiness monitor *)

(** The first render holds no timer handle, so none of its functions
    ever cancels a timer. *)
Lemma clearLoadingTimeout_first_render (w : World) :
  clearLoadingTimeout initialState w = w.
Proof. reflexivity. Qed.

(** X13.  The watchdog armed by a [checkBackend] call is not the handle
    the calling render holds, so the branches of that call that mean to
    cancel it leave it pending, whatever the reply. *)
Lemma own_watchdog_not_cancelled (r : State) (h : Health) (w : World) :
  loadingTimeout r <> Some (nextTimer w) ->
  pending (nextTimer w) (checkBackend_resume r h (checkBackend_start r w))
    = true.
Proof.
  intros Hother. unfold pending.
  apply existsb_exists.
  exists {| timerId := nextTimer w; due := clock w + 30000;
            callback := CbForceStart r |}.
  split; [| apply Pos.eqb_refl].
  apply list_elem_of_In.
  assert (Hkept : forall w0 : World,
    {| timerId := nextTimer w; due := clock w + 30000;
       callback := CbForceStart r |} ∈ timers w0 ->
    {| timerId := nextTimer w; due := clock w + 30000;
       callback := CbForceStart r |} ∈ timers (clearLoadingTimeout r w0)).
  { intros w0 Hin. unfold clearLoadingTimeout.
    destruct (loadingTimeout r) as [id |] eqn:Hid; [| exact Hin].
    simpl. apply list_elem_of_filter. split; [| exact Hin].
    simpl. congruence. }
  assert (Harmed :
    {| timerId := nextTimer w; due := clock w + 30000;
       callback := CbForceStart r |} ∈ timers (checkBackend_start r w)).
  { unfold checkBackend_start. simpl. apply elem_of_app. right.
    apply list_elem_of_singleton. reflexivity. }
  destruct h as [| | | []]; simpl.
  - apply Hkept, Harmed.
  - apply Hkept, Harmed.
  - apply Hkept, Harmed.
  - apply Hkept, Harmed.
  - apply elem_of_app. left. exact Harmed.
Qed.

(** C4.  On mount the health check finds the model loaded after half a
    second: the backend state becomes ready, but the watchdog armed by
    that call is still pending, with the handle React now holds, and
    fires at 30000 ms. *)
Theorem watchdog_survives_model_loaded :
  run [HealthReply 500 (HealthOk true)] mounted = Some startedWorld /\
  backendStatus (store startedWorld) = "ready" /\
  loadingTimeout (store startedWorld) = Some 1%positive /\
  timers startedWorld = [firstWatchdog] /\
  exists w, step (TimerFires 1%positive) startedWorld = Some w /\ clock w = 30000.
Proof.
  repeat split; try reflexivity.
  eexists. split; reflexivity.
Qed.

(** One step of the monitor left to itself keeps it so, hands out no
    handle twice, and removes no timer but the one that fires. *)
Lemma step_unattended (e : Event) (w w' : World) :
  unattended w ->
  step e w = Some w' ->
  unattended w' /\
  (nextTimer w <= nextTimer w')%positive /\
  exists armed,
    timers w' =
      filter (fun t => firedBy e <> Some (timerId t)) (timers w) ++ armed /\
    Forall (fun t => timerId t = nextTimer w) armed.
Proof.
  intros [Htimers Hwaiting] Hstep.
  assert (Hall : firedBy e = None ->
    filter (fun t => firedBy e <> Some (timerId t)) (timers w) = timers w).
  { intros He. clear - He. induction (timers w) as [| x l IH]; [reflexivity |].
    rewrite filter_cons_True by (rewrite He; discriminate).
    f_equal. exact IH. }
  assert (Hfilter : forall id, firedBy e = Some id ->
    filter (fun t => firedBy e <> Some (timerId t)) (timers w) =
    filter (fun t => timerId t <> id) (timers w)).
  { intros id He. apply list_filter_iff.
    intros x. rewrite He. split; intros H ?; apply H; congruence. }
  destruct e as [t h | id]; simpl in Hstep.
  - destruct (inflight w) as [| r waiting] eqn:Hin; [discriminate |].
    destruct (clock w <=? t); [| discriminate].
    inversion Hwaiting as [| ? ? Hr Hrest]; subst r.
    rewrite Hall by reflexivity.
    destruct h as [| | | []]; inversion Hstep; subst w'; clear Hstep;
      unfold unattended; simpl.
    1-4: split; [split; assumption |]; split; [lia |];
         exists []; rewrite app_nil_r; split; [reflexivity | constructor].
    split; [split; [| assumption] |].
    + apply Forall_app. split; [assumption |].
      constructor; [reflexivity | constructor].
    + split; [lia |]. eexists. split; [reflexivity |].
      constructor; [reflexivity | constructor].
  - destruct (List.find _ (timers w)) as [fired |] eqn:Hfind; [| discriminate].
    apply find_some in Hfind as [Hin _].
    apply list_elem_of_In in Hin.
    assert (Hclosure : closureOf (callback fired) = initialState).
    { rewrite Forall_forall in Htimers. apply Htimers, Hin. }
    rewrite (Hfilter id) by reflexivity.
    assert (Hkept : Forall (fun t => closureOf (callback t) = initialState)
                      (filter (fun t => timerId t <> id) (timers w))).
    { rewrite Forall_forall in *. intros x Hx.
      apply list_elem_of_filter in Hx as [_ Hx]. auto. }
    destruct (callback fired) as [r | r]; simpl in Hclosure; subst r;
      inversion Hstep; subst w'; clear Hstep; unfold unattended; simpl.
    + split; [split; assumption |]. split; [lia |].
      exists []. rewrite app_nil_r. split; [reflexivity | constructor].
    + split; [split |].
      * apply Forall_app. split; [assumption |].
        constructor; [reflexivity | constructor].
      * apply Forall_app. split; [assumption |].
        constructor; [reflexivity | constructor].
      * split; [lia |]. eexists. split; [reflexivity |].
        constructor; [reflexivity | constructor].
Qed.

(** However the health requests are answered, as long as the monitor is
    left to itself and the first watchdog has not fired, it is pending
    and is the only timer with its handle. *)
Lemma first_watchdog_pending (events : list Event) (w : World) :
  run events mounted = Some w ->
  TimerFires 1%positive ∉ events ->
  unattended w /\
  List.find (fun t => Pos.eqb (timerId t) 1) (timers w) = Some firstWatchdog.
Proof.
  assert (Hgen : forall events w0 w,
    unattended w0 ->
    (1 < nextTimer w0)%positive ->
    List.find (fun t => Pos.eqb (timerId t) 1) (timers w0)
      = Some firstWatchdog ->
    run events w0 = Some w ->
    TimerFires 1%positive ∉ events ->
    unattended w /\
    List.find (fun t => Pos.eqb (timerId t) 1) (timers w)
      = Some firstWatchdog).
  { clear. induction events as [| e rest IH]; intros w0 w Hun Hnext Hfind Hrun Hnot.
    - inversion Hrun; subst. auto.
    - simpl in Hrun. destruct (step e w0) as [w1 |] eqn:Hstep; [| discriminate].
      destruct (step_unattended e w0 w1 Hun Hstep)
        as (Hun1 & Hnext1 & armed & Htimers & Harmed).
      apply (IH w1 w Hun1); [lia | | exact Hrun |].
      + rewrite Htimers.
        assert (Hne : firedBy e <> Some 1%positive).
        { destruct e; simpl; [discriminate |].
          intros [= ->]. apply Hnot. left. }
        clear - Hfind Hne.
        induction (timers w0) as [| x l IHl]; [discriminate |].
        cbn [List.find] in Hfind. rewrite filter_cons.
        destruct (Pos.eqb_spec (timerId x) 1%positive) as [Hx | Hx].
        * rewrite decide_True by (rewrite Hx; exact Hne).
          simpl app. cbn [List.find].
          rewrite (proj2 (Pos.eqb_eq _ _) Hx). exact Hfind.
        * case_decide; [simpl app; cbn [List.find] |].
          -- destruct (Pos.eqb_spec (timerId x) 1%positive);
               [contradiction |]. apply IHl, Hfind.
          -- apply IHl, Hfind.
      + intros Hin. apply Hnot. right. exact Hin. }
  intros Hrun Hnot.
  apply (Hgen events mounted w); try assumption.
  - split; repeat constructor.
  - reflexivity.
  - reflexivity.
Qed.

(** C3, as the code has it.  Left to itself, and with no terminal reply
    so far, the monitor still has the watchdog of the first
    [checkBackend] call pending up to 30000 ms after that call; when it
    fires, at 30000 ms, the state is forced to ready (no error, not
    loading, detecting) whatever was received; no timer is cancelled:
    the timers pending afterwards are all those pending before, the
    watchdog itself apart. *)
Theorem first_watchdog_forces_ready (events : list Event) (w : World) :
  run events mounted = Some w ->
  Forall (fun e => terminal e = false) events ->
  TimerFires 1%positive ∉ events ->
  clock w <= 30000 ->
  exists w',
    step (TimerFires 1%positive) w = Some w' /\
    clock w' = 30000 /\
    backendStatus (store w') = "ready" /\
    isModelLoading (store w') = false /\
    isDetecting (store w') = true /\
    error (store w') = None /\
    timers w' = filter (fun t => timerId t <> 1%positive) (timers w).
Proof.
  intros Hrun _ Hnot Hclock.
  destruct (first_watchdog_pending events w Hrun Hnot) as [_ Hfind].
  eexists. split.
  - unfold step. rewrite Hfind. reflexivity.
  - simpl. repeat split; try reflexivity. lia.
Qed.

Lemma first_watchdog_forces_ready_witness :
  exists w w',
    run [HealthReply 29000 (HealthOk false)] mounted = Some w /\
    step (TimerFires 1%positive) w = Some w' /\
    clock w' = 30000 /\
    backendStatus (store w') = "ready" /\
    isModelLoading (store w') = false /\
    isDetecting (store w') = true /\
    error (store w') = None /\
    timers w' = filter (fun t => timerId t <> 1%positive) (timers w).
Proof.
  eexists.
  destruct (first_watchdog_forces_ready
              [HealthReply 29000 (HealthOk false)]
              (default mounted
                 (run [HealthReply 29000 (HealthOk false)] mounted)))
    as [w' Hw'].
  - reflexivity.
  - repeat constructor.
  - vm_compute. intros Hin. inversion Hin as [| ? ? ? Hin']. inversion Hin'.
  - vm_compute. discriminate.
  - exists w'. split; [reflexivity | exact Hw'].
Defined.

(** C3 as stated fails on its last part.  The first reply, not loaded,
    comes after 29 s and schedules a poll for 31000 ms.  The watchdog
    fires at 30000 ms and forces ready, yet the poll is still pending;
    it fires at 31000 ms, calls [checkBackend] and puts the state back
    to connecting. *)
Lemma polling_survives_forced_start :
  exists w w',
    run [HealthReply 29000 (HealthOk false); TimerFires 1%positive] mounted = Some w /\
    clock w = 30000 /\
    backendStatus (store w) = "ready" /\
    pollingCancelled w = false /\
    step (TimerFires 2%positive) w = Some w' /\
    clock w' = 31000 /\
    backendStatus (store w') = "connecting".
Proof. do 2 eexists. repeat split; reflexivity. Qed.

(** * Further properties of the code *)

(** ** Detection loop: calls that send no request *)

Lemma captureAndDetect_waiting (r : State) (f : Frame) (w : World) :
  waitingForVideo r f = true ->
  captureAndDetect r f w = (w, true).
Proof.
  unfold waitingForVideo, videoReady, captureAndDetect.
  destruct (webcam f) as [[v |] |]; try discriminate;
    destruct (canvasMounted f), (isDetecting r); simpl; try discriminate;
    [| reflexivity].
  destruct (readyState v =? 4); [discriminate | reflexivity].
Qed.

(** X1.  While the video element is missing or has not enough data, the
    loop only waits: however many frames pass, nothing React holds
    changes (no timestamp, no failure counted), the canvas and the
    timers are untouched, and the next call stays scheduled. *)
Theorem video_not_ready_waits (r : State) (frames : list Frame) (w : World) :
  Forall (fun f => waitingForVideo r f = true) frames ->
  rafLoop r frames w = (w, true).
Proof.
  intros Hall. induction Hall as [| f rest Hf _ IH]; [reflexivity |].
  simpl. rewrite (captureAndDetect_waiting r f w Hf). exact IH.
Qed.

Lemma video_not_ready_waits_witness :
  rafLoop (store startedWorld) [notReadyFrame 16; notReadyFrame 33]
    startedWorld = (startedWorld, true).
Proof.
  apply (video_not_ready_waits (store startedWorld)
           [notReadyFrame 16; notReadyFrame 33] startedWorld).
  repeat constructor.
Defined.

(** Whether a call ends in [requestAnimationFrame] is decided by the
    render of the closure and by what the call observes, never by what
    React holds at the time. *)
Lemma captureAndDetect_again_of_render
    (r : State) (f : Frame) (w w' : World) :
  (captureAndDetect r f w).2 = (captureAndDetect r f w').2.
Proof.
  unfold captureAndDetect, caught. repeat case_match; reflexivity.
Qed.

(** X2.  A running loop cannot be stopped through React's state: for the
    same frames its calls are made and rescheduled alike from any two
    worlds, in particular after the effect cleanup has set [isDetecting]
    to false. *)
Theorem loop_ignores_current_state
    (r : State) (frames : list Frame) (w w' : World) :
  (rafLoop r frames w).2 = (rafLoop r frames w').2 /\
  length (rafTrace r frames w) = length (rafTrace r frames w') /\
  (rafLoop r frames (detectionCleanup w)).2 = (rafLoop r frames w).2.
Proof.
  assert (Hgen : forall frames w w',
    (rafLoop r frames w).2 = (rafLoop r frames w').2 /\
    length (rafTrace r frames w) = length (rafTrace r frames w')).
  { clear. induction frames as [| f rest IH]; intros w w'; [auto |].
    simpl. pose proof (captureAndDetect_again_of_render r f w w') as Hsame.
    destruct (captureAndDetect r f w) as [w1 a1].
    destruct (captureAndDetect r f w') as [w1' a1']. simpl in Hsame.
    subst a1'. destruct a1; simpl; [| auto].
    destruct (IH w1 w1') as [-> ->]. auto. }
  destruct (Hgen frames w w') as [H1 H2].
  destruct (Hgen frames (detectionCleanup w) w) as [H3 _]. auto.
Qed.

Lemma captureAndDetect_noRequest (r : State) (f : Frame) (w : World) :
  noRequest r f = true ->
  (captureAndDetect r f w).2 = true /\
  consecutiveErrors (store (captureAndDetect r f w).1)
    = consecutiveErrors (store w) /\
  error (store (captureAndDetect r f w).1) = error (store w) /\
  detectionCount (store (captureAndDetect r f w).1)
    = detectionCount (store w) /\
  canvas (captureAndDetect r f w).1 = canvas w.
Proof.
  unfold noRequest, requestSent, cycleRuns, videoReady, captureAndDetect.
  destruct (webcam f) as [[v |] |]; try discriminate;
    destruct (canvasMounted f), (isDetecting r); simpl; try discriminate;
    [| auto].
  destruct (readyState v =? 4); simpl; [| auto].
  destruct (screenshot f); simpl; [discriminate |].
  destruct (0 <? lastFrameTime r)%float; simpl; auto.
Qed.

(** X3.  Frames in which no request goes out (the video is not ready, or
    [getScreenshot] gives nothing) are not failures: the failure count,
    the error, the class counts and the overlay stay as they were, and
    the loop stays scheduled. *)
Theorem frames_without_request_are_no_failures
    (r : State) (frames : list Frame) (w : World) :
  Forall (fun f => noRequest r f = true) frames ->
  (rafLoop r frames w).2 = true /\
  consecutiveErrors (store (rafLoop r frames w).1)
    = consecutiveErrors (store w) /\
  error (store (rafLoop r frames w).1) = error (store w) /\
  detectionCount (store (rafLoop r frames w).1) = detectionCount (store w) /\
  canvas (rafLoop r frames w).1 = canvas w.
Proof.
  intros Hall. revert w.
  induction Hall as [| f rest Hf _ IH]; intros w; [simpl; auto |].
  simpl.
  destruct (captureAndDetect_noRequest r f w Hf) as (Ha & Hc & He & Hd & Hv).
  destruct (captureAndDetect r f w) as [w1 again]. simpl in *. subst again.
  destruct (IH w1) as (? & ? & ? & ? & ?).
  repeat split; congruence.
Qed.

Lemma frames_without_request_are_no_failures_witness :
  let frames := [notReadyFrame 16; noScreenshotFrame 33] in
  let out := rafLoop (store startedWorld) frames startedWorld in
  out.2 = true /\
  consecutiveErrors (store out.1) = consecutiveErrors (store startedWorld) /\
  error (store out.1) = error (store startedWorld) /\
  detectionCount (store out.1) = detectionCount (store startedWorld) /\
  canvas out.1 = canvas startedWorld.
Proof.
  apply (frames_without_request_are_no_failures (store startedWorld)
           [notReadyFrame 16; noScreenshotFrame 33] startedWorld).
  repeat constructor.
Defined.

(** ** Detection loop: what the counter counts *)

Lemma captureAndDetect_counter (r : State) (f : Frame) (w : World) :
  (consecutiveErrors r <= 5)%nat ->
  requestSent r f = true ->
  consecutiveErrors (store (captureAndDetect r f w).1) =
    counterStep (consecutiveErrors (store w)) (response f).
Proof.
  intros Hle Hsent. enter_cycle Hsent v. unfold caught.
  destruct (Nat.ltb_spec 5 (consecutiveErrors r)) as [Hgt | _]; [lia |].
  destruct (screenshot f); simpl in *; [| discriminate].
  destruct (0 <? lastFrameTime r)%float, (response f); try reflexivity;
    destruct (surface f); reflexivity.
Qed.

(** X4.  In the loop of a render below the threshold, the count React
    holds after a run of requests is the fold of the replies: each
    non-2xx reply adds one, each 2xx reply sets 0 (also when its body
    cannot be parsed), and a rejected fetch leaves the count alone. *)
Theorem counter_follows_replies
    (r : State) (frames : list Frame) (w : World) :
  (consecutiveErrors r <= 5)%nat ->
  Forall (fun f => requestSent r f = true) frames ->
  consecutiveErrors (store (rafLoop r frames w).1) =
    fold_left counterStep (map response frames) (consecutiveErrors (store w)).
Proof.
  intros Hle Hall. revert w.
  induction Hall as [| f rest Hf _ IH]; intros w; [reflexivity |].
  assert (Hruns : cycleRuns r f = true).
  { unfold requestSent in Hf. apply andb_true_iff in Hf. tauto. }
  destruct (rafLoop_cons r f rest w
              (captureAndDetect_reschedules r f w Hle Hruns)) as [-> _].
  rewrite IH. simpl. f_equal.
  apply captureAndDetect_counter; assumption.
Qed.

Lemma counter_follows_replies_witness :
  consecutiveErrors
    (store (rafLoop (store startedWorld) mixedReplies startedWorld).1)
  = 1%nat.
Proof.
  apply (counter_follows_replies (store startedWorld) mixedReplies
           startedWorld).
  - vm_compute. lia.
  - repeat constructor.
Defined.

(** X5.  A closure whose own count is above 5 stops at its first failed
    request, whatever the kind of failure: no next call is scheduled,
    [isDetecting] is set to false, and the error shown is "Detection
    error: " followed by the message of what was thrown. *)
Theorem above_threshold_any_failure_is_fatal
    (r : State) (f : Frame) (w : World) (message : string) :
  (5 < consecutiveErrors r)%nat ->
  requestSent r f = true ->
  thrown (response f) = Some message ->
  (captureAndDetect r f w).2 = false /\
  isDetecting (store (captureAndDetect r f w).1) = false /\
  error (store (captureAndDetect r f w).1) =
    Some ("Detection error: " +:+ message).
Proof.
  intros Hgt Hsent Hthrown. enter_cycle Hsent v. unfold caught.
  destruct (Nat.ltb_spec 5 (consecutiveErrors r)) as [_ | Hle]; [| lia].
  destruct (screenshot f); simpl in *; [| discriminate].
  destruct (0 <? lastFrameTime r)%float, (response f); simpl in *;
    try discriminate; inversion Hthrown; subst; auto.
Qed.

Lemma above_threshold_any_failure_is_fatal_witness :
  let out := captureAndDetect overThreshold
               (sampleFrame 116 (FetchRejected "Failed to fetch"))
               startedWorld in
  out.2 = false /\
  isDetecting (store out.1) = false /\
  error (store out.1) = Some "Detection error: Failed to fetch".
Proof.
  apply (above_threshold_any_failure_is_fatal overThreshold
           (sampleFrame 116 (FetchRejected "Failed to fetch"))
           startedWorld "Failed to fetch").
  - vm_compute. lia.
  - reflexivity.
  - reflexivity.
Defined.

Lemma captureAndDetect_failure_counts (r : State) (f : Frame) (w : World) :
  rendererSkipped (response f) = true ->
  detectionCount (store (captureAndDetect r f w).1)
    = detectionCount (store w).
Proof.
  intros Hskipped. unfold captureAndDetect, caught.
  destruct (response f); try discriminate;
    repeat case_match; reflexivity.
Qed.

(** X6.  Calls that fail before the predictions are read (the fetch
    rejects, the status is not 2xx, or the body of a 2xx reply cannot be
    parsed or has no predictions) leave the class counts as they were:
    through any run of such failures the counts on display are
    unchanged. *)
Theorem failures_keep_counts
    (r : State) (failures : list Frame) (w : World) :
  Forall (fun f => rendererSkipped (response f) = true) failures ->
  detectionCount (store (rafLoop r failures w).1) = detectionCount (store w).
Proof.
  intros Hall. revert w.
  induction Hall as [| f rest Hf _ IH]; intros w; [reflexivity |].
  simpl. pose proof (captureAndDetect_failure_counts r f w Hf) as Hstep.
  destruct (captureAndDetect r f w) as [w' again]. simpl in *.
  destruct again; [rewrite IH |]; exact Hstep.
Qed.

Lemma failures_keep_counts_witness :
  let counted := (captureAndDetect (store startedWorld)
                    (sampleFrame 0 (HttpOk scenarioPredictions))
                    startedWorld).1 in
  detectionCount (store counted) = {[ "book" := 2%nat; "laptop" := 1%nat ]} /\
  detectionCount (store (rafLoop (store startedWorld) mixedReplies counted).1)
    = detectionCount (store counted).
Proof.
  split; [reflexivity |].
  apply (failures_keep_counts (store startedWorld) mixedReplies).
  repeat constructor.
Defined.

(** ** Detection loop: the frame rate over a loop *)



Lemma captureAndDetect_fps (r : State) (f : Frame) (w : World) :
  cycleRuns r f = true ->
  (0 <? lastFrameTime r)%float = true ->
  fps (store (captureAndDetect r f w).1) =
    Math_round (1000 / (now f - lastFrameTime r))%float /\
  lastFrameTime (store (captureAndDetect r f w).1) = now f.
Proof.
  intros Hruns Hpos. enter_cycle Hruns v. unfold caught. rewrite Hpos.
  repeat case_match; simpl; auto.
Qed.

(** X7.  Over a loop the frame rate is measured from the last frame time
    of the render that started it, not from the frame before: when that
    time is greater than 0, after any non-empty run of frames that pass
    the readiness checks [fps] is
    [Math.round(1000 / (now - lastFrameTime))] for the [now] of the last
    frame the loop ran, and the time React holds is that [now].  The
    last frame run is the last frame there is when the render's own
    failure count is at most 5. *)
Theorem fps_after_loop (r : State) (frames : list Frame) (w : World) :
  (0 <? lastFrameTime r)%float = true ->
  frames <> [] ->
  Forall (fun f => cycleRuns r f = true) frames ->
  exists final,
    frames !! (length (rafTrace r frames w) - 1)%nat = Some final /\
    fps (store (rafLoop r frames w).1) =
      Math_round (1000 / (now final - lastFrameTime r))%float /\
    lastFrameTime (store (rafLoop r frames w).1) = now final /\
    ((consecutiveErrors r <= 5)%nat ->
     length (rafTrace r frames w) = length frames).
Proof.
  intros Hpos Hne Hall. revert w Hne.
  induction Hall as [| f rest Hf Hrest IH]; intros w Hne; [congruence |].
  pose proof (captureAndDetect_fps r f w Hf Hpos) as [Hfps Htime].
  pose proof (captureAndDetect_reschedules r f w) as Hagain.
  simpl. destruct (captureAndDetect r f w) as [w' again]. simpl in *.
  destruct again.
  - destruct rest as [| g rest'].
    + exists f. simpl. auto.
    + destruct (IH w') as (final & Hidx & Hfps' & Htime' & Hlen);
        [discriminate |].
      exists final.
      assert (Hpos' : (0 < length (rafTrace r (g :: rest') w'))%nat).
      { simpl. destruct (captureAndDetect r g w'). simpl. lia. }
      split; [| split; [exact Hfps' | split; [exact Htime' |]]].
      * match goal with
        | |- _ !! ?k = _ =>
            replace k
              with (S (length (rafTrace r (g :: rest') w') - 1))%nat by lia
        end.
        exact Hidx.
      * intros Hle. rewrite (Hlen Hle). reflexivity.
  - exists f. simpl. repeat split; auto.
    intros Hle. specialize (Hagain Hle Hf). discriminate.
Qed.

(** A render whose own count is 6 and whose last frame time is 100: the
    request of the frame at 116 fails, the loop stops there, and the
    frame at 133 is not run. *)
Lemma fps_after_loop_witness :
  exists final,
    [sampleFrame 116 http500; sampleFrame 133 (HttpOk [])]
      !! (length (rafTrace overThreshold
                    [sampleFrame 116 http500; sampleFrame 133 (HttpOk [])]
                    startedWorld) - 1)%nat = Some final /\
    fps (store (rafLoop overThreshold
                  [sampleFrame 116 http500; sampleFrame 133 (HttpOk [])]
                  startedWorld).1) =
      Math_round (1000 / (now final - lastFrameTime overThreshold))%float /\
    lastFrameTime (store (rafLoop overThreshold
                            [sampleFrame 116 http500;
                             sampleFrame 133 (HttpOk [])]
                            startedWorld).1) = now final /\
    ((consecutiveErrors overThreshold <= 5)%nat ->
     length (rafTrace overThreshold
               [sampleFrame 116 http500; sampleFrame 133 (HttpOk [])]
               startedWorld) = 2%nat).
Proof.
  apply (fps_after_loop overThreshold
           [sampleFrame 116 http500; sampleFrame 133 (HttpOk [])]
           startedWorld).
  - reflexivity.
  - discriminate.
  - repeat constructor.
Defined.

(** The numbers of that run: 63 frames a second at 116 ms. *)
Lemma fps_after_stopped_loop :
  let out := rafLoop overThreshold
               [sampleFrame 116 http500; sampleFrame 133 (HttpOk [])]
               startedWorld in
  out.2 = false /\ fps (store out.1) = JInt 63 /\
  lastFrameTime (store out.1) = 116%float.
Proof. vm_compute. auto. Qed.



(** ** Class counts *)

(** X9.  The two counts never exceed the number of predictions between
    them: book and laptop counts add up to the number of predictions of
    these two classes, and to the number of all predictions exactly when
    every prediction is a book or a laptop. *)
Theorem counts_bounded (predictions : list Prediction) :
  (countClass "book" predictions + countClass "laptop" predictions =
     length (filter (fun p => class p = "book" \/ class p = "laptop")
               predictions))%nat /\
  (countClass "book" predictions + countClass "laptop" predictions
     <= length predictions)%nat /\
  ((countClass "book" predictions + countClass "laptop" predictions
      = length predictions)%nat <->
   Forall (fun p => class p = "book" \/ class p = "laptop") predictions).
Proof.
  unfold countClass.
  induction predictions as [| p rest (IHsum & IHle & IHall)].
  - simpl. repeat split; auto; try lia.
  - rewrite !filter_cons.
    destruct (decide (class p = "book")) as [Hb | Hb];
      destruct (decide (class p = "laptop")) as [Hl | Hl];
      try (rewrite Hb in Hl; discriminate).
    + rewrite decide_True by auto. simpl. repeat split; try lia.
      * intros Heq. constructor; [auto |]. apply IHall. lia.
      * intros Hall. apply Forall_cons in Hall as [_ Hrest].
        apply IHall in Hrest. lia.
    + rewrite decide_True by auto. simpl. repeat split; try lia.
      * intros Heq. constructor; [auto |]. apply IHall. lia.
      * intros Hall. apply Forall_cons in Hall as [_ Hrest].
        apply IHall in Hrest. lia.
    + rewrite decide_False by tauto. simpl. repeat split; try lia.
      intros Hall. apply Forall_cons in Hall as [Hp _]. tauto.
Qed.

(** ** Overlay renderer: what is painted for each prediction *)

Lemma drawPrediction_written_out
    (mt : string -> string -> float) (c : Canvas) (p : Prediction) :
  painted (drawPrediction mt c p) = painted c ++ shapesOf mt (ctx c) p /\
  ctx (drawPrediction mt c p) = contextAfter (ctx c) p.
Proof.
  unfold drawPrediction, shapesOf, contextAfter, classColour.
  destruct (bbox p) as [[[x y] w] h].
  repeat case_decide; simpl; rewrite <- ?app_assoc; auto.
Qed.

Lemma drawPredictions_written_out
    (mt : string -> string -> float) (predictions : list Prediction)
    (c : Canvas) :
  painted (fold_left (drawPrediction mt) predictions c) =
    painted c ++ overlayOf mt (ctx c) predictions.
Proof.
  revert c. induction predictions as [| p rest IH]; intros c.
  - simpl. rewrite app_nil_r. reflexivity.
  - simpl. rewrite IH.
    destruct (drawPrediction_written_out mt c p) as [-> ->].
    rewrite <- app_assoc. reflexivity.
Qed.

Lemma overlayOf_length
    (mt : string -> string -> float) (k : Context2D)
    (predictions : list Prediction) :
  length (overlayOf mt k predictions) = (3 * length predictions)%nat.
Proof.
  revert k. induction predictions as [| p rest IH]; intros k; [reflexivity |].
  simpl overlayOf. rewrite length_app, IH. unfold shapesOf.
  destruct (bbox p) as [[[x y] w] h]. simpl. lia.
Qed.

Lemma overlayOf_lookup
    (mt : string -> string -> float) (predictions : list Prediction)
    (k : Context2D) (i : nat) (p : Prediction) :
  predictions !! i = Some p ->
  let '(x, y, w, h) := bbox p in
  (forall colour, classColour (class p) = Some colour ->
     overlayOf mt k predictions !! (3 * i)%nat =
       Some (StrokedRect colour 2%float x y w h)) /\
  overlayOf mt k predictions !! (3 * i + 1)%nat =
    Some (FilledRect
            (default (if i is O then fillStyle k else "white")
                     (classColour (class p)))
            x (y - 20)%float
            (mt (if i is O then font k else "16px Arial") (label p) + 10)%float
            20%float) /\
  overlayOf mt k predictions !! (3 * i + 2)%nat =
    Some (FilledText "white" "16px Arial" (label p)
            (x + 5)%float (y - 5)%float).
Proof.
  revert k i. induction predictions as [| q rest IH]; intros k i Hi.
  - discriminate.
  - destruct i as [| i].
    + inversion Hi; subst q. simpl overlayOf. unfold shapesOf.
      destruct (bbox p) as [[[x y] w] h]. simpl.
      split; [| auto]. intros colour ->. reflexivity.
    + simpl in Hi. specialize (IH (contextAfter k q) i Hi).
      simpl overlayOf.
      assert (Hlen : length (shapesOf mt k q) = 3%nat).
      { unfold shapesOf. destruct (bbox q) as [[[? ?] ?] ?]. reflexivity. }
      destruct (bbox p) as [[[x y] w] h].
      destruct IH as (Hstroke & Hback & Htext).
      replace (3 * S i)%nat with (3 + 3 * i)%nat by lia.
      replace (3 + 3 * i + 1)%nat with (3 + (3 * i + 1))%nat by lia.
      replace (3 + 3 * i + 2)%nat with (3 + (3 * i + 2))%nat by lia.
      rewrite !lookup_app_r by (rewrite Hlen; lia).
      rewrite Hlen.
      replace (3 + 3 * i - 3)%nat with (3 * i)%nat by lia.
      replace (3 + (3 * i + 1) - 3)%nat with (3 * i + 1)%nat by lia.
      replace (3 + (3 * i + 2) - 3)%nat with (3 * i + 2)%nat by lia.
      split; [exact Hstroke |]. split; [| exact Htext].
      rewrite Hback. destruct i; reflexivity.
Qed.

(** X10.  With canvas, video and 2D context in place, [drawDetections]
    paints three shapes for every prediction, in the order of the
    predictions.  For the prediction at index [i]: a book or a laptop
    is outlined in its class colour with line width 2; the label is
    written in white 16px Arial at (x + 5, y - 5); the label background
    is a rectangle at (x, y - 20), 20 high and 10 wider than the label
    as measured in the font then in force, which is the context default
    "10px sans-serif" for the first prediction and "16px Arial" after
    it, filled in the class colour or, for another class, in black for
    the first prediction and in white after it. *)
Theorem overlay_of_prediction
    (f : Frame) (predictions : list Prediction) (v : Video) (c : Canvas)
    (i : nat) (p : Prediction) :
  canvasMounted f = true ->
  webcam f = Some (Some v) ->
  context2d f = true ->
  predictions !! i = Some p ->
  let shapes := painted (drawDetections f predictions c) in
  let '(x, y, w, h) := bbox p in
  length shapes = (3 * length predictions)%nat /\
  (forall colour, classColour (class p) = Some colour ->
     shapes !! (3 * i)%nat = Some (StrokedRect colour 2%float x y w h)) /\
  shapes !! (3 * i + 1)%nat =
    Some (FilledRect
            (default (if i is O then "#000000" else "white")
                     (classColour (class p)))
            x (y - 20)%float
            (measureText f (if i is O then "10px sans-serif"
                            else "16px Arial") (label p) + 10)%float
            20%float) /\
  shapes !! (3 * i + 2)%nat =
    Some (FilledText "white" "16px Arial" (label p)
            (x + 5)%float (y - 5)%float).
Proof.
  intros Hcanvas Hvideo Hctx Hi.
  assert (Hshapes : painted (drawDetections f predictions c) =
                    overlayOf (measureText f) defaultContext predictions).
  { unfold drawDetections. rewrite Hcanvas, Hvideo, Hctx. simpl.
    rewrite drawPredictions_written_out.
    unfold clearRect, set_height, set_width. simpl.
    rewrite !Z.leb_refl. reflexivity. }
  cbv zeta. rewrite Hshapes.
  pose proof (overlayOf_lookup (measureText f) predictions defaultContext
                i p Hi) as Hlookup.
  destruct (bbox p) as [[[x y] w] h].
  split; [apply overlayOf_length | exact Hlookup].
Qed.

Lemma overlay_of_prediction_witness :
  let crowd := [samplePrediction "book" 0.9; samplePrediction "person" 0.8] in
  let shapes := painted (drawDetections (sampleFrame 0 (HttpOk crowd)) crowd
                           blankCanvas) in
  length shapes = 6%nat /\
  (forall colour, classColour "person" = Some colour ->
     shapes !! 3%nat = Some (StrokedRect colour 2 10 50 100 80)%float) /\
  shapes !! 4%nat = Some (FilledRect "white" 10 30 90 20)%float /\
  shapes !! 5%nat =
    Some (FilledText "white" "16px Arial" "Laptop 80%" 15 45)%float.
Proof.
  apply (overlay_of_prediction
           (sampleFrame 0 (HttpOk [samplePrediction "book" 0.9;
                                   samplePrediction "person" 0.8]))
           [samplePrediction "book" 0.9; samplePrediction "person" 0.8]
           sampleVideo blankCanvas 1 (samplePrediction "person" 0.8));
    reflexivity.
Defined.

(** Without a surface nothing is drawn: if the canvas or the video
    element is missing the canvas is left exactly as it was, old overlay
    included; if both are there but no 2D context can be had, the canvas
    has already been resized to the video frame, which leaves it blank. *)
Lemma drawDetections_without_surface
    (f : Frame) (predictions : list Prediction) (c : Canvas) :
  (canvasMounted f = false \/ webcam f = None \/ webcam f = Some None ->
   drawDetections f predictions c = c) /\
  (forall v, canvasMounted f = true -> webcam f = Some (Some v) ->
             context2d f = false ->
   drawDetections f predictions c =
     {| width := videoWidth v; height := videoHeight v;
        ctx := defaultContext; painted := [] |}).
Proof.
  unfold drawDetections. split.
  - intros [-> | [-> | ->]]; [reflexivity | |];
      destruct (canvasMounted f); reflexivity.
  - intros v -> -> ->. reflexivity.
Qed.

(** ** Readiness monitor: the buttons *)

Lemma pending_filter_out (id : TimerId) (l : list Timer) :
  existsb (fun t => Pos.eqb (timerId t) id)
    (filter (fun t => timerId t <> id) l) = false.
Proof.
  induction l as [| x l IH]; [reflexivity |].
  rewrite filter_cons. case_decide as Hx; [| exact IH].
  simpl. rewrite IH.
  destruct (Pos.eqb_spec (timerId x) id); [contradiction | reflexivity].
Qed.

(** X11.  "Start Anyway" pressed in a render that holds a timer handle
    cancels that timer and no other, forgets the handle, clears the
    error and switches to ready and detecting; the failure count is not
    reset. *)
Theorem force_start_cancels_held_watchdog
    (r : State) (id : TimerId) (w : World) :
  loadingTimeout r = Some id ->
  let w' := forceStartDetection r w in
  pending id w' = false /\
  timers w' = filter (fun t => timerId t <> id) (timers w) /\
  loadingTimeout (store w') = None /\
  backendStatus (store w') = "ready" /\
  error (store w') = None /\
  isModelLoading (store w') = false /\
  isDetecting (store w') = true /\
  consecutiveErrors (store w') = consecutiveErrors (store w).
Proof.
  intros Hheld. unfold forceStartDetection, clearLoadingTimeout, pending.
  rewrite Hheld. simpl. split; [apply pending_filter_out |].
  repeat split; reflexivity.
Qed.

(** Pressed while the first health check is still out, the button
    cancels the watchdog armed on mount. *)
Lemma force_start_cancels_held_watchdog_witness :
  let w' := forceStartDetection (currentRender mounted) mounted in
  pending 1%positive mounted = true /\
  pending 1%positive w' = false /\
  timers w' = filter (fun t => timerId t <> 1%positive) (timers mounted) /\
  loadingTimeout (store w') = None /\
  backendStatus (store w') = "ready" /\
  error (store w') = None /\
  isModelLoading (store w') = false /\
  isDetecting (store w') = true /\
  consecutiveErrors (store w') = consecutiveErrors (store mounted).
Proof.
  split; [reflexivity |].
  apply (force_start_cancels_held_watchdog (currentRender mounted)
           1%positive mounted).
  reflexivity.
Defined.

(** X12.  "Retry Connection" pressed in the render [r] of the world it
    acts on clears the error, shows the loading state again, resets the
    failure count and starts a health check with a watchdog of its own;
    it cancels nothing, so the watchdog [r] holds stays pending beside
    the new one.  If the check then finds the model loaded, it is the
    old watchdog that is cancelled and the new one that stays. *)
Theorem retry_cancels_previous_watchdog_only (w : World) (old : TimerId) :
  loadingTimeout (store w) = Some old ->
  old <> nextTimer w ->
  let r := currentRender w in
  let retried := retryConnection r w in
  let loaded := checkBackend_resume r (HealthOk true) retried in
  (error (store retried) = None /\
   isModelLoading (store retried) = true /\
   consecutiveErrors (store retried) = 0%nat /\
   backendStatus (store retried) = "connecting" /\
   loadingTimeout (store retried) = Some (nextTimer w) /\
   isDetecting (store retried) = isDetecting (store w)) /\
  timers retried =
    timers w ++ [{| timerId := nextTimer w; due := clock w + 30000;
                    callback := CbForceStart r |}] /\
  pending old loaded = false /\
  pending (nextTimer w) loaded = true /\
  backendStatus (store loaded) = "ready".
Proof.
  intros Hheld Hfresh. cbv zeta. unfold currentRender.
  split; [repeat split; reflexivity |]. split; [reflexivity |].
  unfold checkBackend_resume, clearLoadingTimeout. rewrite Hheld.
  unfold pending. simpl. split; [apply pending_filter_out |].
  split; [| reflexivity].
  rewrite filter_app, existsb_app. apply orb_true_iff. right.
  rewrite filter_cons_True by (simpl; congruence).
  simpl. rewrite Pos.eqb_refl. reflexivity.
Qed.

Lemma retry_cancels_previous_watchdog_only_witness :
  let w := default mounted (run [HealthReply 200 HealthHttpError] mounted) in
  let r := currentRender w in
  let retried := retryConnection r w in
  let loaded := checkBackend_resume r (HealthOk true) retried in
  (error (store retried) = None /\
   isModelLoading (store retried) = true /\
   consecutiveErrors (store retried) = 0%nat /\
   backendStatus (store retried) = "connecting" /\
   loadingTimeout (store retried) = Some 2%positive /\
   isDetecting (store retried) = isDetecting (store w)) /\
  timers retried =
    timers w ++ [{| timerId := 2%positive; due := 200 + 30000;
                    callback := CbForceStart r |}] /\
  pending 1%positive loaded = false /\
  pending 2%positive loaded = true /\
  backendStatus (store loaded) = "ready".
Proof.
  apply (retry_cancels_previous_watchdog_only
           (default mounted (run [HealthReply 200 HealthHttpError] mounted))
           1%positive).
  - reflexivity.
  - vm_compute. discriminate.
Defined.

(** ** Readiness monitor: replies *)

(** The watchdog of a [checkBackend] call survives the reply to that
    call, whatever the reply, in every render that does not already hold
    the handle the call is about to get. *)
Lemma own_watchdog_not_cancelled_witness :
  let w := default mounted (run [HealthReply 200 HealthHttpError] mounted) in
  nextTimer w = 2%positive /\
  pending 2%positive
    (checkBackend_resume (currentRender w) HealthRejected
       (checkBackend_start (currentRender w) w)) = true.
Proof.
  split; [reflexivity |].
  apply (own_watchdog_not_cancelled
           (currentRender
              (default mounted
                 (run [HealthReply 200 HealthHttpError] mounted)))
           HealthRejected
           (default mounted (run [HealthReply 200 HealthHttpError] mounted))).
  vm_compute. discriminate.
Defined.

(** X14.  Only the reply "not loaded" polls again: it sets the state to
    model_loading and schedules one call of [checkBackend] of the same
    render 2000 ms later; after any other reply no timer is pending that
    was not pending before. *)
Theorem poll_only_when_not_loaded (r : State) (h : Health) (w : World) :
  (h = HealthOk false ->
   timers (checkBackend_resume r h w) =
     timers w ++ [{| timerId := nextTimer w; due := clock w + 2000;
                     callback := CbCheckBackend r |}] /\
   backendStatus (store (checkBackend_resume r h w)) = "model_loading" /\
   error (store (checkBackend_resume r h w)) = error (store w)) /\
  (h <> HealthOk false ->
   forall t, t ∈ timers (checkBackend_resume r h w) -> t ∈ timers w).
Proof.
  split.
  - intros ->. simpl. auto.
  - intros Hh t.
    assert (Hclear : t ∈ timers (clearLoadingTimeout r w) -> t ∈ timers w).
    { unfold clearLoadingTimeout. destruct (loadingTimeout r); [| auto].
      simpl. intros Hin. apply list_elem_of_filter in Hin. tauto. }
    destruct h as [| | | []]; simpl; try exact Hclear. congruence.
Qed.

(** ** Readiness monitor: left to itself *)

Lemma run_unattended (events : list Event) (w0 w : World) :
  unattended w0 -> run events w0 = Some w -> unattended w.
Proof.
  revert w0. induction events as [| e rest IH]; intros w0 Hun Hrun.
  - inversion Hrun; subst. exact Hun.
  - simpl in Hrun. destruct (step e w0) as [w1 |] eqn:Hstep; [| discriminate].
    apply (IH w1); [| exact Hrun].
    apply (step_unattended e w0 w1 Hun Hstep).
Qed.

Lemma mounted_unattended : unattended mounted.
Proof. split; repeat constructor. Qed.

(** X15.  Left to itself after mounting, the monitor never cancels a
    timer: whatever replies and timers came before, a step removes from
    the pending timers only the one that fires, so every watchdog and
    every poll that was armed runs in the end. *)
Theorem unattended_run_cancels_nothing
    (events : list Event) (w : World) (e : Event) (w' : World) (t : Timer) :
  run events mounted = Some w ->
  step e w = Some w' ->
  t ∈ timers w ->
  firedBy e <> Some (timerId t) ->
  t ∈ timers w'.
Proof.
  intros Hrun Hstep Hin Hfired.
  pose proof (run_unattended events mounted w mounted_unattended Hrun) as Hun.
  destruct (step_unattended e w w' Hun Hstep) as (_ & _ & armed & -> & _).
  apply elem_of_app. left. apply list_elem_of_filter. auto.
Qed.

(** The poll scheduled at 29 s is still pending after the watchdog has
    fired at 30 s. *)
Lemma unattended_run_cancels_nothing_witness :
  {| timerId := 2%positive; due := 31000;
     callback := CbCheckBackend initialState |} ∈
    timers (default mounted
              (run [HealthReply 29000 (HealthOk false);
                    TimerFires 1%positive] mounted)).
Proof.
  apply (unattended_run_cancels_nothing
           [HealthReply 29000 (HealthOk false)]
           (default mounted (run [HealthReply 29000 (HealthOk false)] mounted))
           (TimerFires 1%positive)
           (default mounted
              (run [HealthReply 29000 (HealthOk false);
                    TimerFires 1%positive] mounted))
           {| timerId := 2%positive; due := 31000;
              callback := CbCheckBackend initialState |}).
  - reflexivity.
  - reflexivity.
  - apply list_elem_of_In. vm_compute. auto.
  - vm_compute. discriminate.
Defined.

(** X16.  An error of the first health check does not last: whichever
    way the check fails within the first 30 s, the state is error with a
    message on screen and nothing detecting, but the watchdog armed on
    mount is still pending, and when it fires at 30000 ms the message is
    cleared and the state is ready and detecting. *)
Theorem health_error_wiped_by_watchdog (t : Z) (h : Health) :
  0 <= t <= 30000 ->
  (forall loaded, h <> HealthOk loaded) ->
  exists w w',
    run [HealthReply t h] mounted = Some w /\
    backendStatus (store w) = "error" /\
    is_Some (error (store w)) /\
    isModelLoading (store w) = false /\
    isDetecting (store w) = false /\
    pollingCancelled w = true /\
    step (TimerFires 1%positive) w = Some w' /\
    clock w' = 30000 /\
    backendStatus (store w') = "ready" /\
    error (store w') = None /\
    isDetecting (store w') = true.
Proof.
  intros [Hlo Hhi] Hfails.
  assert (Hclock : (0 <=? t) = true) by (apply Z.leb_le; exact Hlo).
  destruct h as [| | | loaded]; [| | | destruct (Hfails loaded eq_refl)];
    do 2 eexists; simpl; rewrite Hclock;
    (split; [reflexivity |]); simpl;
    repeat split; try reflexivity; try (eexists; reflexivity);
    change (Z.max t (0 + 30000) = 30000); lia.
Qed.

Lemma health_error_wiped_by_watchdog_witness :
  exists w w',
    run [HealthReply 200 HealthRejected] mounted = Some w /\
    backendStatus (store w) = "error" /\
    is_Some (error (store w)) /\
    isModelLoading (store w) = false /\
    isDetecting (store w) = false /\
    pollingCancelled w = true /\
    step (TimerFires 1%positive) w = Some w' /\
    clock w' = 30000 /\
    backendStatus (store w') = "ready" /\
    error (store w') = None /\
    isDetecting (store w') = true.
Proof.
  apply (health_error_wiped_by_watchdog 200 HealthRejected).
  - lia.
  - discriminate.
Defined.

(** ** The effects *)


